(** * go-callback-service: the JSON responder, the error translator and the
      panic-recovery middleware

    A shallow embedding of package [web] (Respond, RespondError,
    zipkinSetErrorOnSpan) and of package [middleware] (Panics).

    Go code runs here in a small monad [M]: a computation takes the state of
    the request (the [Values] struct the context points to, the calls made on
    the [http.ResponseWriter], the calls made on trace spans, the lines given
    to the loggers) and ends in one of three ways: it returns, it panics, or
    the process exits ([log.Fatal]).  [defer] and [recover] are combinators
    of that monad. *)

From Stdlib Require Import ZArith NArith List Bool Ascii String Lia.
Import ListNotations.

Set Warnings "-register-all".

Local Open Scope string_scope.
Local Open Scope Z_scope.

(* ================================================================== *)
(** ** Go errors and [github.com/pkg/errors] *)

(** A Go [error] interface value.  [nil_error] is the nil interface.  A
    non-nil error has its [Error()] text, says whether its dynamic type
    implements [PublicError] (then with what [Code()] and [Detail()] return)
    and whether it implements pkg/errors' [causer] (then with what [Cause()]
    returns, which may be nil).  Methods are taken to be pure. *)
Inductive error : Type :=
| nil_error
| an_error (msg : string) (public : option (string * string))
           (causer : option error).

Definition is_nil (e : error) : bool :=
  match e with nil_error => true | an_error _ _ _ => false end.

(** [errors.Cause]: follow [Cause()] while the error is non-nil and
    implements [causer]. *)
Fixpoint Cause (err : error) : error :=
  match err with
  | nil_error => nil_error
  | an_error _ _ None => err
  | an_error _ _ (Some cause) => Cause cause
  end.

(** The type switch [case PublicError]: the interface value is non-nil and
    its dynamic type has the methods of [PublicError]. *)
Definition as_PublicError (e : error) : option (string * string) :=
  match e with
  | nil_error => None
  | an_error _ public _ => public
  end.

(** [errors.New]-like plain errors, [errors.Wrap], and a public error. *)
Definition plain_error (msg : string) : error := an_error msg None None.
Definition wrap_error (msg : string) (cause : error) : error :=
  an_error msg None (Some cause).
Definition public_error (code detail : string) : error :=
  an_error code (Some (code, detail)) None.

(* ================================================================== *)
(** ** [net/http] constants *)

Module http.

Definition StatusOK : Z := 200.
Definition StatusNoContent : Z := 204.
Definition StatusNotFound : Z := 404.
Definition StatusInternalServerError : Z := 500.

(** [http.StatusText]: the text for the code, empty when unknown. *)
Definition StatusText (code : Z) : string :=
  match code with
  | 100 => "Continue"
  | 101 => "Switching Protocols"
  | 102 => "Processing"
  | 103 => "Early Hints"
  | 200 => "OK"
  | 201 => "Created"
  | 202 => "Accepted"
  | 203 => "Non-Authoritative Information"
  | 204 => "No Content"
  | 205 => "Reset Content"
  | 206 => "Partial Content"
  | 207 => "Multi-Status"
  | 208 => "Already Reported"
  | 226 => "IM Used"
  | 300 => "Multiple Choices"
  | 301 => "Moved Permanently"
  | 302 => "Found"
  | 303 => "See Other"
  | 304 => "Not Modified"
  | 305 => "Use Proxy"
  | 307 => "Temporary Redirect"
  | 308 => "Permanent Redirect"
  | 400 => "Bad Request"
  | 401 => "Unauthorized"
  | 402 => "Payment Required"
  | 403 => "Forbidden"
  | 404 => "Not Found"
  | 405 => "Method Not Allowed"
  | 406 => "Not Acceptable"
  | 407 => "Proxy Authentication Required"
  | 408 => "Request Timeout"
  | 409 => "Conflict"
  | 410 => "Gone"
  | 411 => "Length Required"
  | 412 => "Precondition Failed"
  | 413 => "Request Entity Too Large"
  | 414 => "Request URI Too Long"
  | 415 => "Unsupported Media Type"
  | 416 => "Requested Range Not Satisfiable"
  | 417 => "Expectation Failed"
  | 418 => "I'm a teapot"
  | 421 => "Misdirected Request"
  | 422 => "Unprocessable Entity"
  | 423 => "Locked"
  | 424 => "Failed Dependency"
  | 425 => "Too Early"
  | 426 => "Upgrade Required"
  | 428 => "Precondition Required"
  | 429 => "Too Many Requests"
  | 431 => "Request Header Fields Too Large"
  | 451 => "Unavailable For Legal Reasons"
  | 500 => "Internal Server Error"
  | 501 => "Not Implemented"
  | 502 => "Bad Gateway"
  | 503 => "Service Unavailable"
  | 504 => "Gateway Timeout"
  | 505 => "HTTP Version Not Supported"
  | 506 => "Variant Also Negotiates"
  | 507 => "Insufficient Storage"
  | 508 => "Loop Detected"
  | 510 => "Not Extended"
  | 511 => "Network Authentication Required"
  | _ => ""
  end.

End http.

(** The conversion [int32(n)] of a Go [int]: the low 32 bits, signed. *)
Definition int32 (n : Z) : Z := (n + 2 ^ 31) mod 2 ^ 32 - 2 ^ 31.

(* ================================================================== *)
(** ** [encoding/json] on the values this package serializes *)

Module json.

Local Open Scope N_scope.

(** The double quote and the backslash, as one-character strings. *)
Definition dq : string := String "034"%char EmptyString.
Definition bs : string := String "092"%char EmptyString.

Definition hex_digit (n : N) : ascii :=
  match String.get (N.to_nat n) "0123456789abcdef" with
  | Some c => c
  | None => "0"%char
  end.

(** [htmlSafeSet]: the ASCII bytes written as they are: from the space up,
    but for the double quote, the backslash, and [<], [>], [&]. *)
Definition htmlSafe (b : N) : bool :=
  ((32 <=? b) && (b <? 128) &&
   negb ((b =? 34) || (b =? 92) || (b =? 60) || (b =? 62) || (b =? 38))).

(** What the string encoder writes for one byte below [utf8.RuneSelf]. *)
Definition escape_ascii (c : ascii) : string :=
  let b := N_of_ascii c in
  if htmlSafe b then String c EmptyString
  else if ((b =? 92) || (b =? 34)) then bs ++ String c EmptyString
  else if (b =? 8) then bs ++ "b"
  else if (b =? 12) then bs ++ "f"
  else if (b =? 10) then bs ++ "n"
  else if (b =? 13) then bs ++ "r"
  else if (b =? 9) then bs ++ "t"
  else bs ++ "u00" ++ String (hex_digit (N.shiftr b 4))
                        (String (hex_digit (N.land b 15)) EmptyString).

Definition in_range (lo hi b : N) : bool := ((lo <=? b) && (b <=? hi)).

(** [utf8.DecodeRuneInString] as far as the encoder needs it: the width of
    the well-formed multi-byte sequence that starts with byte [b0] and goes
    on with [rest], or [None] for [(RuneError, 1)].  The ranges of the second
    byte are utf8's [acceptRanges]. *)
Definition rune_width (b0 : N) (rest : string) : option nat :=
  let byte_at n := option_map N_of_ascii (String.get n rest) in
  let cont n := match byte_at n with
                | Some b => in_range 128 191 b
                | None => false
                end in
  let second lo hi := match byte_at 0%nat with
                      | Some b => in_range lo hi b
                      | None => false
                      end in
  if in_range 194 223 b0 then
    if second 128 191 then Some 2%nat else None
  else if in_range 224 239 b0 then
    let ok1 := if (b0 =? 224) then second 160 191
               else if (b0 =? 237) then second 128 159
               else second 128 191 in
    if ok1 && cont 1%nat then Some 3%nat else None
  else if in_range 240 244 b0 then
    let ok1 := if (b0 =? 240) then second 144 191
               else if (b0 =? 244) then second 128 143
               else second 128 191 in
    if ok1 && cont 1%nat && cont 2%nat then Some 4%nat else None
  else None.

(** The body of the encoder's loop over a Go string (with [escapeHTML] set,
    as [json.Marshal] has it).  [copy] counts the bytes still to be copied of
    a well-formed multi-byte rune: the Go loop jumps over them with
    [i += size] and copies them with the next [src[start:i]].  U+2028 and
    U+2029 (E2 80 A8, E2 80 A9) are escaped; a byte that starts no
    well-formed sequence becomes the escape of U+FFFD. *)
Fixpoint encode_bytes (copy : nat) (s : string) : string :=
  match s with
  | EmptyString => EmptyString
  | String c rest =>
    match copy with
    | S k => String c (encode_bytes k rest)
    | O =>
      let b := N_of_ascii c in
      if (b <? 128) then escape_ascii c ++ encode_bytes 0 rest
      else
        let other :=
          match rune_width b rest with
          | Some n => String c (encode_bytes (Nat.pred n) rest)
          | None => bs ++ "ufffd" ++ encode_bytes 0 rest
          end in
        match rest with
        | String c1 (String c2 rest') =>
          let b1 := N_of_ascii c1 in
          let b2 := N_of_ascii c2 in
          if ((b =? 226) && (b1 =? 128) && ((b2 =? 168) || (b2 =? 169)))
          then bs ++ "u202" ++ String (hex_digit (N.land b2 15)) EmptyString
                  ++ encode_bytes 0 rest'
          else other
        | _ => other
        end
    end
  end.

(** A Go string as a JSON string literal. *)
Definition appendString (s : string) : string :=
  dq ++ encode_bytes 0 s ++ dq.

End json.

(** [ErrorResponse] is the form used for API responses from failures. *)
Record ErrorResponse : Type := mkErrorResponse {
  Error : string;   (* `json:"error"` *)
  Detail : string;  (* `json:"message"` *)
}.

(** The [interface{}] values handed to [Respond]: the package's own envelope
    and a few Go values around it, one of which [json.Marshal] refuses. *)
Inductive value : Type :=
| NilV                                   (* nil *)
| BoolV (b : bool)
| StringV (s : string)
| ErrorResponseV (er : ErrorResponse)
| SliceV (elems : list value)            (* a non-nil []interface{} *)
| ChanV.                                 (* a channel *)

Module json_Marshal.
Import json.

(** [*json.UnsupportedTypeError] for a channel. *)
Definition UnsupportedTypeError : error :=
  plain_error "json: unsupported type: chan int".

(** The encoding of a value, [None] where the encoder gives up.  A struct is
    written field by field in declaration order under the names of its
    [json] tags. *)
Fixpoint encode (v : value) : option string :=
  match v with
  | NilV => Some "null"
  | BoolV b => Some (if b then "true" else "false")
  | StringV s => Some (appendString s)
  | ErrorResponseV er =>
      Some ("{" ++ dq ++ "error" ++ dq ++ ":" ++ appendString (Error er)
                ++ "," ++ dq ++ "message" ++ dq ++ ":"
                ++ appendString (Detail er) ++ "}")
  | SliceV elems =>
      let fix elements (first : bool) (l : list value) : option string :=
        match l with
        | [] => Some "]"
        | x :: xs =>
          match encode x, elements false xs with
          | Some a, Some b => Some ((if first then "" else ",") ++ a ++ b)
          | _, _ => None
          end
        end in
      option_map (append "[") (elements true elems)
  | ChanV => None
  end.

(** [json.Marshal]: the bytes and a nil error, or no bytes and the error. *)
Definition Marshal (v : value) : string * error :=
  match encode v with
  | Some res => (res, nil_error)
  | None => ("", UnsupportedTypeError)
  end.

End json_Marshal.

(* ================================================================== *)
(** ** The state of a request and the monad of Go computations *)

(** Modelled from the spec: the struct [Values] of package [web] is declared
    in a file that is not among the sources; the spec gives it a status-code
    field and a trace identifier, and the code uses [StatusCode] and
    [TraceID]. *)
Record Values : Type := mkValues {
  TraceID : string;
  StatusCode : Z;
}.

(** The method calls made on an [http.ResponseWriter]. *)
Inductive WriterCall : Type :=
| Header_Set (key val : string)      (* w.Header().Set(key, val) *)
| WriteHeader (statusCode : Z)       (* w.WriteHeader(statusCode) *)
| Write (b : string).                (* w.Write(b) *)

(** The calls made on a [*trace.Span], [StartSpan] that creates it among
    them. *)
Inductive SpanCall : Type :=
| StartSpan
| AddAttributes (key val : string)   (* trace.StringAttribute(key, val) *)
| SetStatus (code : Z)               (* trace.Status{Code: code} *)
| SpanEnd.

(** A [*log.Logger]: the standard one of package [log], or one made by the
    program. *)
Inductive Logger : Type :=
| std
| logger (prefix : string).

(** The value a panic carries.  [PanicNil] is the nil of [panic(nil)] in a
    module whose go directive is below 1.21 (or under GODEBUG panicnil=1):
    [recover()] then returns nil although a panic is under way.
    [PanicNilError] is what the runtime makes of [panic(nil)] otherwise,
    [NilDereference] the runtime error of a field access through a nil
    pointer. *)
Inductive PanicValue : Type :=
| PanicString (s : string)
| PanicError (msg : string)
| PanicNil
| PanicNilError
| NilDereference.

(** What [recover()] returns for the panic under way, [None] for nil. *)
Definition recover (v : PanicValue) : option PanicValue :=
  match v with
  | PanicNil => None
  | _ => Some v
  end.

(** The verb [%v] on a panic value. *)
Definition fmt_v (v : PanicValue) : string :=
  match v with
  | PanicString s => s
  | PanicError msg => msg
  | PanicNil => "<nil>"
  | PanicNilError => "panic called with nil argument (obsolete)"
  | NilDereference =>
      "runtime error: invalid memory address or nil pointer dereference"
  end.

(** The state a request's code works on.  [values] is the one [Values]
    struct of the request, which the context refers to by pointer, so that
    every holder of the context sees its updates.  [writer] and [spans] and
    [logs] record calls, oldest first.  [write_error] is what the writer's
    [Write] answers for given bytes, [stack] what [debug.Stack()] returns. *)
Record World : Type := mkWorld {
  values : Values;
  writer : list WriterCall;
  write_error : string -> error;
  spans : list (string * SpanCall);
  logs : list (Logger * string);
  stack : string;
}.

(** What the assertion of [ctx.Value(KeyValues)] to a pointer to [Values]
    finds: nothing of that type
    ([ok] false), a nil pointer of that type, or the pointer to the
    request's [Values]. *)
Inductive ValuesLookup : Type :=
| Missing
| NilPointer
| Pointer.

Record Context : Type := mkContext {
  KeyValues : ValuesLookup;
  current_span : option string;
}.

Record Request : Type := mkRequest {
  Method : string;
  URL : string;
}.

Inductive Outcome (A : Type) : Type :=
| Returned (a : A)
| Panicked (v : PanicValue)
| Exited (code : Z).

Arguments Returned {A} a.
Arguments Panicked {A} v.
Arguments Exited {A} code.

Definition M (A : Type) : Type := World -> Outcome A * World.

Definition ret {A} (a : A) : M A := fun w => (Returned a, w).

Definition bind {A B} (m : M A) (k : A -> M B) : M B :=
  fun w =>
    match m w with
    | (Returned a, w') => k a w'
    | (Panicked v, w') => (Panicked v, w')
    | (Exited c, w') => (Exited c, w')
    end.

Notation "x <- m ;; k" := (bind m (fun x => k))
  (at level 61, m at next level, right associativity).
Notation "m ;; k" := (bind m (fun _ => k))
  (at level 61, right associativity).

Definition panic {A} (v : PanicValue) : M A := fun w => (Panicked v, w).

(** [os.Exit(code)]: no deferred function runs. *)
Definition os_Exit {A} (code : Z) : M A := fun w => (Exited code, w).

(** [defer d] before [body]: [d] runs when [body] returns or panics, not
    when the process exits; a panic of [d] replaces the one under way. *)
Definition defer {A} (d : M unit) (body : M A) : M A :=
  fun w =>
    match body w with
    | (Returned a, w1) =>
        match d w1 with
        | (Returned _, w2) => (Returned a, w2)
        | (Panicked v, w2) => (Panicked v, w2)
        | (Exited c, w2) => (Exited c, w2)
        end
    | (Panicked v, w1) =>
        match d w1 with
        | (Returned _, w2) => (Panicked v, w2)
        | (Panicked v', w2) => (Panicked v', w2)
        | (Exited c, w2) => (Exited c, w2)
        end
    | (Exited c, w1) => (Exited c, w1)
    end.

(** A deferred function that starts with [r := recover()]: [d] is given
    what [recover] returns, [None] for nil, be it that nothing panicked or
    that the panic carries nil; the panic, if any, stops there and the
    function that deferred [d] returns once [d] has. *)
Definition defer_recover (d : option PanicValue -> M unit) (body : M unit)
  : M unit :=
  fun w =>
    match body w with
    | (Returned _, w1) => d None w1
    | (Panicked v, w1) => d (recover v) w1
    | (Exited c, w1) => (Exited c, w1)
    end.

(** *** The primitives *)

Definition set_values (v : Values) (w : World) : World :=
  mkWorld v (writer w) (write_error w) (spans w) (logs w) (stack w).
Definition add_writer (c : WriterCall) (w : World) : World :=
  mkWorld (values w) (writer w ++ [c]) (write_error w) (spans w) (logs w)
          (stack w).
Definition add_span (name : string) (c : SpanCall) (w : World) : World :=
  mkWorld (values w) (writer w) (write_error w) (spans w ++ [(name, c)])
          (logs w) (stack w).
Definition add_log (l : Logger) (line : string) (w : World) : World :=
  mkWorld (values w) (writer w) (write_error w) (spans w)
          (logs w ++ [(l, line)]) (stack w).

Module log.

(** [l.Printf]/[l.Print]: one line to the logger. *)
Definition Print (l : Logger) (line : string) : M unit :=
  fun w => (Returned tt, add_log l line w).

(** [l.Fatal]: [Print] followed by [os.Exit(1)]. *)
Definition Fatal {A} (l : Logger) (line : string) : M A :=
  Print l line ;; os_Exit 1.

End log.

Module trace.

(** [trace.StartSpan(ctx, name)]: the context that carries the new span,
    and the span.  A derived context finds the values of its parent. *)
Definition StartSpan (ctx : Context) (name : string) : M (Context * string) :=
  fun w => (Returned (mkContext (KeyValues ctx) (Some name), name),
            add_span name StartSpan w).

Definition AddAttributes (span : string) (key val : string) : M unit :=
  fun w => (Returned tt, add_span span (AddAttributes key val) w).

Definition SetStatus (span : string) (code : Z) : M unit :=
  fun w => (Returned tt, add_span span (SetStatus code) w).

Definition End_ (span : string) : M unit :=
  fun w => (Returned tt, add_span span SpanEnd w).

End trace.

(** The methods of the request's [http.ResponseWriter].  The writer is one
    that takes every call: a method records its call and returns.  A writer
    that refuses a call by panicking, as those of net/http do in
    [WriteHeader] for a code outside 100..999, is not modelled: the
    statements below are about a writer that takes the calls made on it. *)
Module w.

Definition Header_Set (key val : string) : M unit :=
  fun w => (Returned tt, add_writer (Header_Set key val) w).

Definition WriteHeader (statusCode : Z) : M unit :=
  fun w => (Returned tt, add_writer (WriteHeader statusCode) w).

Definition Write (b : string) : M error :=
  fun w => (Returned (write_error w b), add_writer (Write b) w).

End w.

(** [debug.Stack()]. *)
Definition debug_Stack : M string := fun w => (Returned (stack w), w).

(** [v.StatusCode = statusCode] through the pointer found in the context. *)
Definition store_StatusCode (v : ValuesLookup) (statusCode : Z) : M unit :=
  match v with
  | Pointer =>
      fun w => (Returned tt, set_values (mkValues (TraceID (values w)) statusCode) w)
  | _ => panic NilDereference
  end.

(** [v.TraceID] through the pointer found in the context. *)
Definition load_TraceID (v : ValuesLookup) : M string :=
  match v with
  | Pointer => fun w => (Returned (TraceID (values w)), w)
  | _ => panic NilDereference
  end.

(* ================================================================== *)
(** ** Package [web] *)

Module web.

(** Respond converts a Go value to JSON and sends it to the client. *)
Definition Respond (ctx : Context) (data : value) (statusCode : Z) : M error :=
  let v := KeyValues ctx in
  (match v with
   | Missing => log.Fatal std "web value missing from context"
   | _ => ret tt
   end) ;;
  store_StatusCode v statusCode ;;
  if statusCode =? http.StatusNoContent then
    w.WriteHeader statusCode ;;
    ret nil_error
  else
    let (res, err) := json_Marshal.Marshal data in
    if negb (is_nil err) then ret err
    else
      w.Header_Set "Content-Type" "application/json; charset=utf-8" ;;
      w.WriteHeader statusCode ;;
      err <- w.Write res ;;
      if negb (is_nil err) then ret err
      else ret nil_error.

(** zipkinSetErrorOnSpan tags the span with an error code. *)
Definition zipkinSetErrorOnSpan (span : string) (errcode errmessage : string)
    (statusCode : Z) : M unit :=
  trace.AddAttributes span "error" errcode ;;
  (if negb (String.eqb errmessage "")
   then trace.AddAttributes span "message" errmessage
   else ret tt) ;;
  trace.SetStatus span statusCode.

(** RespondError sends an error reponse back to the client. *)
Definition RespondError (ctx : Context) (err : error) (statusCode : Z)
  : M error :=
  cs <- trace.StartSpan ctx "web.RespondError" ;;
  let span := snd cs in
  defer (trace.End_ span)
    (match as_PublicError (Cause err) with
     | Some (code, detail) =>
         zipkinSetErrorOnSpan span code detail (int32 statusCode) ;;
         let er := mkErrorResponse code detail in
         err <- Respond ctx (ErrorResponseV er) statusCode ;;
         if negb (is_nil err) then ret err else ret nil_error
     | None =>
         zipkinSetErrorOnSpan span "server_error" ""
                              (int32 http.StatusInternalServerError) ;;
         err <- Respond ctx
                  (ErrorResponseV
                     (mkErrorResponse
                        (http.StatusText http.StatusInternalServerError) ""))
                  http.StatusInternalServerError ;;
         if negb (is_nil err) then ret err else ret nil_error
     end).

(** [type Handler func(ctx, w, r)]. *)
Definition Handler : Type := Context -> Request -> M unit.

End web.

(* ================================================================== *)
(** ** Package [middleware] *)

Module middleware.

(** The new line of the format ["%s :\n%s"]. *)
Definition nl : string := String "010"%char EmptyString.

(** Panics recovers from panics of the handler it wraps. *)
Definition Panics (log : Logger) (after : web.Handler) : web.Handler :=
  fun ctx r =>
    cs <- trace.StartSpan ctx "internal.middleware.Panics" ;;
    let ctx := fst cs in
    let span := snd cs in
    defer (trace.End_ span)
      (let v := KeyValues ctx in
       (match v with
        | Missing => log.Fatal log "web value missing from context"
        | _ => ret tt
        end) ;;
       defer_recover
         (fun r =>
            match r with
            | Some r =>
                log.Print log ("panic: " ++ fmt_v r) ;;
                id <- load_TraceID v ;;
                st <- debug_Stack ;;
                log.Print log (id ++ " :" ++ nl ++ st)
            | None => ret tt
            end)
         (after ctx r)).

End middleware.

(* ================================================================== *)
(** ** Vocabulary of the statements *)

(** The request's [Values] struct is in the context. *)
Definition present (ctx : Context) : Prop := KeyValues ctx = Pointer.

(** An error value is a failure when it is not nil. *)
Definition failed (e : error) : Prop := is_nil e = false.

(** The bodies written, in order. *)
Fixpoint bodies (calls : list WriterCall) : list string :=
  match calls with
  | [] => []
  | Write b :: rest => b :: bodies rest
  | _ :: rest => bodies rest
  end.

(** The status lines written, in order. *)
Fixpoint status_lines (calls : list WriterCall) : list Z :=
  match calls with
  | [] => []
  | WriteHeader c :: rest => c :: status_lines rest
  | _ :: rest => status_lines rest
  end.

Definition content_type : string := "application/json; charset=utf-8".

(** The world after [v.StatusCode = statusCode]. *)
Definition recorded (statusCode : Z) (w : World) : World :=
  set_values (mkValues (TraceID (values w)) statusCode) w.

(** [sub] occurs in [s]. *)
Definition Contains (sub s : string) : Prop :=
  exists pre post, s = pre ++ sub ++ post.


(** The JSON object of an error envelope, its two strings already encoded. *)
Definition envelope (error_literal message_literal : string) : string :=
  "{" ++ json.dq ++ "error" ++ json.dq ++ ":" ++ error_literal ++ ","
      ++ json.dq ++ "message" ++ json.dq ++ ":" ++ message_literal ++ "}".

(** A string between double quotes. *)
Definition quoted (s : string) : string := json.dq ++ s ++ json.dq.

(** The body of the response to an error that is not public. *)
Definition internal_server_error_body : string :=
  envelope (quoted "Internal Server Error") (quoted "").

(** The world after the optional message attribute of
    [zipkinSetErrorOnSpan]. *)
Definition tag_message (span errmessage : string) (w : World) : World :=
  if String.eqb errmessage "" then w
  else add_span span (AddAttributes "message" errmessage) w.

(** The world after [zipkinSetErrorOnSpan]. *)
Definition tagged (span errcode errmessage : string) (statusCode : Z)
    (w : World) : World :=
  add_span span (SetStatus statusCode)
    (tag_message span errmessage
       (add_span span (AddAttributes "error" errcode) w)).

(** The world after a [Respond] that wrote [res] with [statusCode]. *)
Definition responded (statusCode : Z) (res : string) (w : World) : World :=
  add_writer (Write res)
    (add_writer (WriteHeader statusCode)
       (add_writer (Header_Set "Content-Type" content_type)
          (recorded statusCode w))).

(** The calls [zipkinSetErrorOnSpan] makes on the span, in order. *)
Definition span_tags (span errcode errmessage : string) (statusCode : Z)
  : list (string * SpanCall) :=
  ((span, AddAttributes "error" errcode)
   :: (if String.eqb errmessage "" then []
       else [(span, AddAttributes "message" errmessage)])
   ++ [(span, SetStatus statusCode)])%list.

(** What [RespondError] makes of an error and the caller's status code: the
    tags of its span, the status code and the body it hands to [Respond]. *)
Definition error_tags (err : error) (statusCode : Z)
  : list (string * SpanCall) :=
  match as_PublicError (Cause err) with
  | Some (code, detail) =>
      span_tags "web.RespondError" code detail (int32 statusCode)
  | None => span_tags "web.RespondError" "server_error" "" 500
  end.

Definition error_status (err : error) (statusCode : Z) : Z :=
  match as_PublicError (Cause err) with
  | Some _ => statusCode
  | None => 500
  end.

Definition error_body (err : error) : string :=
  match as_PublicError (Cause err) with
  | Some (code, detail) =>
      envelope (json.appendString code) (json.appendString detail)
  | None => internal_server_error_body
  end.

Definition error_envelope (err : error) : ErrorResponse :=
  match as_PublicError (Cause err) with
  | Some (code, detail) => mkErrorResponse code detail
  | None => mkErrorResponse "Internal Server Error" ""
  end.

(** The world when [RespondError] calls [Respond]: its span started and
    tagged. *)
Definition error_tagged (err : error) (statusCode : Z) (w : World) : World :=
  match as_PublicError (Cause err) with
  | Some (code, detail) =>
      tagged "web.RespondError" code detail (int32 statusCode)
             (add_span "web.RespondError" StartSpan w)
  | None =>
      tagged "web.RespondError" "server_error" "" 500
             (add_span "web.RespondError" StartSpan w)
  end.




(* ================================================================== *)
(** ** Sample requests *)

(** A request whose context carries its [Values] and whose writer takes
    every write. *)
Definition sample_ctx : Context := mkContext Pointer None.
Definition sample_world : World :=
  mkWorld (mkValues "trace-1" 0) [] (fun _ => nil_error) [] []
          "goroutine 7 [running]".

(** The same request on a connection the client has closed. *)
Definition broken_pipe : error := plain_error "write: broken pipe".
Definition closed_world : World :=
  mkWorld (mkValues "trace-1" 0) [] (fun _ => broken_pipe) [] []
          "goroutine 7 [running]".

(** A context the request pipeline did not prepare. *)
Definition bare_ctx : Context := mkContext Missing None.

Definition sample_request : Request := mkRequest "GET" "/callbacks".
Definition app_logger : Logger := logger "CALLBACK : ".

(** A handler that starts a response and panics. *)
Definition panicking_handler : web.Handler :=
  fun _ _ => w.WriteHeader http.StatusOK ;; panic (PanicString "oops").

(** The same handler with [panic(nil)], where [recover()] returns nil. *)
Definition nil_panicking_handler : web.Handler :=
  fun _ _ => w.WriteHeader http.StatusOK ;; panic PanicNil.

(** A public error under two wrappers, and an opaque one. *)
Definition not_found : error :=
  wrap_error "handler" (wrap_error "store" (public_error "not_found" "no such callback")).
Definition opaque : error :=
  wrap_error "handler" (plain_error "dial tcp 10.0.0.7:5432: refused").

(** A context that holds a nil pointer to [Values]. *)
Definition nil_ctx : Context := mkContext NilPointer None.

(** A handler that answers and returns, and one that answers an error
    through [RespondError]. *)
Definition quiet_handler : web.Handler :=
  fun _ _ => w.WriteHeader http.StatusOK.
Definition failing_handler (err : error) (statusCode : Z) : web.Handler :=
  fun ctx _ => web.RespondError ctx err statusCode ;; ret tt.

(** A public error that wraps a plain cause. *)
Definition public_wrapper : error :=
  an_error "conflict" (Some ("conflict", "already registered"))
           (Some (plain_error "pq: duplicate key")).

(* ================================================================== *)
(** ** Strings and the encoder *)

Lemma append_nil_r (s : string) : s ++ "" = s.
Proof. induction s as [|c s IH]; simpl; [reflexivity | now rewrite IH]. Qed.

Lemma append_assoc (a b c : string) : (a ++ b) ++ c = a ++ b ++ c.
Proof. induction a as [|x a IH]; simpl; [reflexivity | now rewrite IH]. Qed.

Lemma Contains_prefix (sub post : string) : Contains sub (sub ++ post).
Proof. exists "", post. reflexivity. Qed.

Lemma Contains_suffix (pre sub : string) : Contains sub (pre ++ sub).
Proof. exists pre, "". now rewrite append_nil_r. Qed.




(** The encoder on a string with a byte of each kind: [<] and the double
    quote are escaped, a new line becomes its two-character escape, the
    two-byte rune U+00E9 is copied, a stray byte 0xFF becomes U+FFFD. *)
Example appendString_escapes :
  json.appendString
    ("a<" ++ json.dq ++ String "010" (String "195" (String "169"
       (String "255" "z"))))
  = json.dq ++ "a" ++ json.bs ++ "u003c" ++ json.bs ++ json.dq
      ++ json.bs ++ "n" ++ String "195" (String "169" "")
      ++ json.bs ++ "ufffd" ++ "z" ++ json.dq.
Proof. reflexivity. Qed.

Example int32_wraps : int32 (2 ^ 32 + 404) = 404 /\ int32 (2 ^ 31) = - 2 ^ 31.
Proof. split; reflexivity. Qed.

Example Cause_unwraps :
  Cause not_found = public_error "not_found" "no such callback"
  /\ Cause (an_error "odd" (Some ("c", "d")) (Some nil_error)) = nil_error.
Proof. split; reflexivity. Qed.

Lemma Marshal_ErrorResponse (er : ErrorResponse) :
  json_Marshal.Marshal (ErrorResponseV er)
  = (envelope (json.appendString (Error er)) (json.appendString (Detail er)),
     nil_error).
Proof. reflexivity. Qed.

(* ================================================================== *)
(** ** The monad and the paths of [Respond] *)

Lemma is_nil_true (e : error) : is_nil e = true -> e = nil_error.
Proof. destruct e; simpl; [reflexivity | discriminate]. Qed.

(** [if err != nil { return err }; return nil] after a call returns what the
    call returned. *)
Lemma return_err_or_nil (m : M error) (w : World) :
  (err <- m ;; if negb (is_nil err) then ret err else ret nil_error) w = m w.
Proof.
  unfold bind. destruct (m w) as [[e | v | c] w']; try reflexivity.
  destruct e; reflexivity.
Qed.

Lemma bodies_app (a b : list WriterCall) :
  bodies (a ++ b) = (bodies a ++ bodies b)%list.
Proof.
  induction a as [|c a IH]; simpl; [reflexivity|].
  destruct c; simpl; now rewrite IH.
Qed.

Lemma status_lines_app (a b : list WriterCall) :
  status_lines (a ++ b) = (status_lines a ++ status_lines b)%list.
Proof.
  induction a as [|c a IH]; simpl; [reflexivity|].
  destruct c; simpl; now rewrite IH.
Qed.

Ltac by_presence ctx H :=
  destruct ctx as [kv sp]; unfold present in H; simpl in H; subst kv.

Lemma Respond_missing ctx data statusCode w :
  KeyValues ctx = Missing ->
  web.Respond ctx data statusCode w
  = (Exited 1, add_log std "web value missing from context" w).
Proof.
  intros H. destruct ctx as [kv sp]; simpl in H; subst kv. reflexivity.
Qed.

Lemma Respond_no_content ctx data w :
  present ctx ->
  web.Respond ctx data http.StatusNoContent w
  = (Returned nil_error,
     add_writer (WriteHeader http.StatusNoContent)
                (recorded http.StatusNoContent w)).
Proof. intros H. by_presence ctx H. reflexivity. Qed.

Lemma Respond_marshal_failed ctx data statusCode w :
  present ctx -> statusCode <> http.StatusNoContent ->
  failed (snd (json_Marshal.Marshal data)) ->
  web.Respond ctx data statusCode w
  = (Returned (snd (json_Marshal.Marshal data)), recorded statusCode w).
Proof.
  intros H Hs Hm. by_presence ctx H.
  unfold web.Respond, bind; simpl.
  apply Z.eqb_neq in Hs. rewrite Hs.
  destruct (json_Marshal.Marshal data) as [res err]; simpl in *.
  unfold failed in Hm. rewrite Hm. reflexivity.
Qed.

Lemma Respond_marshalled ctx data statusCode res w :
  present ctx -> statusCode <> http.StatusNoContent ->
  json_Marshal.Marshal data = (res, nil_error) ->
  web.Respond ctx data statusCode w
  = (Returned (write_error w res),
     add_writer (Write res)
       (add_writer (WriteHeader statusCode)
          (add_writer (Header_Set "Content-Type" content_type)
             (recorded statusCode w)))).
Proof.
  intros H Hs Hm. by_presence ctx H.
  unfold web.Respond, bind; simpl.
  apply Z.eqb_neq in Hs. rewrite Hs, Hm. simpl.
  destruct (write_error w res); reflexivity.
Qed.

Lemma Marshal_cases (data : value) :
  (exists res, json_Marshal.Marshal data = (res, nil_error))
  \/ failed (snd (json_Marshal.Marshal data)).
Proof.
  unfold json_Marshal.Marshal. destruct (json_Marshal.encode data) as [res|].
  - left. now exists res.
  - right. reflexivity.
Qed.

(* ================================================================== *)
(** ** Respond *)




(** C4.  With status 204 and the [Values] struct in the context, [Respond]
    returns nil after one call on the writer, [WriteHeader(204)]: it writes
    no body and sets no header, and the value passed plays no part. *)
Theorem Respond_no_content_only_status ctx data w :
  present ctx ->
  web.Respond ctx data http.StatusNoContent w
  = (Returned nil_error,
     add_writer (WriteHeader http.StatusNoContent)
                (recorded http.StatusNoContent w))
  /\ writer (snd (web.Respond ctx data http.StatusNoContent w))
     = (writer w ++ [WriteHeader http.StatusNoContent])%list
  /\ bodies (writer (snd (web.Respond ctx data http.StatusNoContent w)))
     = bodies (writer w)
  /\ (forall key val,
        In (Header_Set key val)
           (writer (snd (web.Respond ctx data http.StatusNoContent w))) ->
        In (Header_Set key val) (writer w))
  /\ (forall data',
        web.Respond ctx data' http.StatusNoContent w
        = web.Respond ctx data http.StatusNoContent w).
Proof.
  intros Hp. rewrite (Respond_no_content ctx data w Hp). simpl.
  split; [reflexivity|]. split; [reflexivity|]. split.
  - rewrite bodies_app. simpl. now rewrite app_nil_r.
  - split.
    + intros key val Hin. apply in_app_or in Hin as [Hin | Hin]; [exact Hin|].
      destruct Hin as [Hin | []]. discriminate Hin.
    + intros data'. now rewrite (Respond_no_content ctx data' w Hp).
Qed.

Lemma Respond_no_content_only_status_witness :
  present sample_ctx /\
  writer (snd (web.Respond sample_ctx ChanV http.StatusNoContent sample_world))
  = [WriteHeader 204].
Proof.
  split; [reflexivity|].
  exact (proj1 (proj2 (Respond_no_content_only_status sample_ctx ChanV
                         sample_world eq_refl))).
Defined.



(** C9.  With the [Values] struct in the context, [Respond] has stored the
    status code in it whatever follows; when serialization then fails, the
    caller gets the error, the writer has received nothing, and
    [StatusCode] holds the requested status all the same. *)
Theorem Respond_records_status_first ctx data statusCode w :
  present ctx ->
  StatusCode (values (snd (web.Respond ctx data statusCode w))) = statusCode
  /\ (statusCode <> http.StatusNoContent ->
      failed (snd (json_Marshal.Marshal data)) ->
      web.Respond ctx data statusCode w
      = (Returned (snd (json_Marshal.Marshal data)), recorded statusCode w)
      /\ writer (recorded statusCode w) = writer w
      /\ values (recorded statusCode w)
         = mkValues (TraceID (values w)) statusCode).
Proof.
  intros Hp. split.
  - destruct (Z.eq_dec statusCode http.StatusNoContent) as [-> | Hs].
    + now rewrite (Respond_no_content ctx data w Hp).
    + destruct (Marshal_cases data) as [[res Hm] | Hm].
      * now rewrite (Respond_marshalled _ _ _ _ w Hp Hs Hm).
      * now rewrite (Respond_marshal_failed _ _ _ w Hp Hs Hm).
  - intros Hs Hm. rewrite (Respond_marshal_failed _ _ _ w Hp Hs Hm).
    split; [reflexivity|]. split; reflexivity.
Qed.

Lemma Respond_records_status_first_witness :
  present sample_ctx /\
  StatusCode (values sample_world) = 0 /\
  web.Respond sample_ctx ChanV http.StatusOK sample_world
  = (Returned json_Marshal.UnsupportedTypeError,
     recorded http.StatusOK sample_world) /\
  StatusCode (values (snd (web.Respond sample_ctx ChanV http.StatusOK
                                       sample_world))) = 200.
Proof.
  assert (Hp : present sample_ctx) by reflexivity.
  assert (Hs : http.StatusOK <> http.StatusNoContent) by discriminate.
  assert (Hf : failed (snd (json_Marshal.Marshal ChanV))) by reflexivity.
  split; [exact Hp|]. split; [reflexivity|]. split.
  - exact (proj1 (proj2 (Respond_records_status_first sample_ctx ChanV
                           http.StatusOK sample_world Hp) Hs Hf)).
  - exact (proj1 (Respond_records_status_first sample_ctx ChanV http.StatusOK
                    sample_world Hp)).
Defined.

(* ================================================================== *)
(** ** The paths of [RespondError] *)

Lemma zipkinSetErrorOnSpan_run span errcode errmessage statusCode w :
  web.zipkinSetErrorOnSpan span errcode errmessage statusCode w
  = (Returned tt, tagged span errcode errmessage statusCode w).
Proof.
  unfold web.zipkinSetErrorOnSpan, tagged, tag_message, bind,
    trace.AddAttributes, trace.SetStatus, ret.
  destruct (String.eqb errmessage ""); reflexivity.
Qed.

Lemma tagged_spans span errcode errmessage statusCode w :
  spans (tagged span errcode errmessage statusCode w)
  = (spans w
     ++ (span, AddAttributes "error" errcode)
        :: (if String.eqb errmessage "" then []
            else [(span, AddAttributes "message" errmessage)])
     ++ [(span, SetStatus statusCode)])%list.
Proof.
  unfold tagged, tag_message.
  destruct (String.eqb errmessage ""); simpl; now rewrite <- !app_assoc.
Qed.

Lemma RespondError_public_delegates ctx err statusCode code detail w :
  as_PublicError (Cause err) = Some (code, detail) ->
  web.RespondError ctx err statusCode w
  = (cs <- trace.StartSpan ctx "web.RespondError" ;;
     defer (trace.End_ (snd cs))
       (web.zipkinSetErrorOnSpan (snd cs) code detail (int32 statusCode) ;;
        web.Respond ctx (ErrorResponseV (mkErrorResponse code detail))
                    statusCode)) w.
Proof.
  intros H. unfold web.RespondError. rewrite H.
  unfold bind at 1 4. unfold trace.StartSpan at 1 2. cbv beta iota. simpl snd.
  unfold defer, bind at 1 3.
  rewrite !zipkinSetErrorOnSpan_run. now rewrite return_err_or_nil.
Qed.

Lemma RespondError_default_delegates ctx err statusCode w :
  as_PublicError (Cause err) = None ->
  web.RespondError ctx err statusCode w
  = (cs <- trace.StartSpan ctx "web.RespondError" ;;
     defer (trace.End_ (snd cs))
       (web.zipkinSetErrorOnSpan (snd cs) "server_error" "" 500 ;;
        web.Respond ctx
          (ErrorResponseV (mkErrorResponse "Internal Server Error" ""))
          500)) w.
Proof.
  intros H. unfold web.RespondError. rewrite H.
  unfold bind at 1 4. unfold trace.StartSpan at 1 2. cbv beta iota. simpl snd.
  unfold defer, bind at 1 3.
  rewrite !zipkinSetErrorOnSpan_run. now rewrite return_err_or_nil.
Qed.

Lemma RespondError_default_any ctx err err' statusCode statusCode' w :
  as_PublicError (Cause err) = None ->
  as_PublicError (Cause err') = None ->
  web.RespondError ctx err statusCode w
  = web.RespondError ctx err' statusCode' w.
Proof.
  intros H H'.
  rewrite (RespondError_default_delegates _ _ _ _ H).
  now rewrite (RespondError_default_delegates _ _ _ _ H').
Qed.

Lemma RespondError_default_run ctx err statusCode w :
  as_PublicError (Cause err) = None ->
  present ctx ->
  web.RespondError ctx err statusCode w
  = (Returned (write_error w internal_server_error_body),
     add_span "web.RespondError" SpanEnd
       (responded 500 internal_server_error_body
          (tagged "web.RespondError" "server_error" "" 500
             (add_span "web.RespondError" StartSpan w)))).
Proof.
  intros H Hp. rewrite (RespondError_default_delegates _ _ _ _ H).
  unfold bind at 1. unfold trace.StartSpan. cbv beta iota. simpl snd.
  unfold defer, bind. rewrite zipkinSetErrorOnSpan_run.
  rewrite (Respond_marshalled ctx _ 500 internal_server_error_body _ Hp);
    [reflexivity | discriminate | reflexivity].
Qed.

Lemma RespondError_public_run ctx err statusCode code detail w :
  as_PublicError (Cause err) = Some (code, detail) ->
  present ctx ->
  statusCode <> http.StatusNoContent ->
  web.RespondError ctx err statusCode w
  = (Returned (write_error w (envelope (json.appendString code)
                                       (json.appendString detail))),
     add_span "web.RespondError" SpanEnd
       (responded statusCode
          (envelope (json.appendString code) (json.appendString detail))
          (tagged "web.RespondError" code detail (int32 statusCode)
             (add_span "web.RespondError" StartSpan w)))).
Proof.
  intros H Hp Hs. rewrite (RespondError_public_delegates _ _ _ _ _ _ H).
  unfold bind at 1. unfold trace.StartSpan. cbv beta iota. simpl snd.
  unfold defer, bind. rewrite zipkinSetErrorOnSpan_run.
  rewrite (Respond_marshalled ctx _ statusCode _ _ Hp Hs
             (Marshal_ErrorResponse (mkErrorResponse code detail))).
  unfold tagged, tag_message.
  destruct (String.eqb detail ""); reflexivity.
Qed.

Lemma responded_writer statusCode res w :
  writer (responded statusCode res w)
  = (writer w ++ [Header_Set "Content-Type" content_type;
                  WriteHeader statusCode; Write res])%list.
Proof. unfold responded. simpl. now rewrite <- !app_assoc. Qed.

Lemma tagged_writer span errcode errmessage statusCode w :
  writer (tagged span errcode errmessage statusCode w) = writer w.
Proof.
  unfold tagged, tag_message. destruct (String.eqb errmessage ""); reflexivity.
Qed.

Lemma responded_spans statusCode res w :
  spans (responded statusCode res w) = spans w.
Proof. reflexivity. Qed.

(* ================================================================== *)
(** ** RespondError *)




(** C2.  When the root cause of the error does not implement [PublicError],
    [RespondError] tags its span server_error and hands [Respond] the
    status 500 and the envelope of the text of 500 and an empty message,
    whatever status code the caller supplied; any two such errors, with any
    two status codes, give the same run; and with the [Values] struct in the
    context the writer receives the status 500 and one body, the fixed
    envelope. *)
Theorem RespondError_opaque ctx err statusCode w :
  as_PublicError (Cause err) = None ->
  web.RespondError ctx err statusCode w
  = (cs <- trace.StartSpan ctx "web.RespondError" ;;
     defer (trace.End_ (snd cs))
       (web.zipkinSetErrorOnSpan (snd cs) "server_error" "" 500 ;;
        web.Respond ctx
          (ErrorResponseV (mkErrorResponse "Internal Server Error" ""))
          500)) w
  /\ (forall err' statusCode',
        as_PublicError (Cause err') = None ->
        web.RespondError ctx err' statusCode' w
        = web.RespondError ctx err statusCode w)
  /\ (present ctx ->
      writer (snd (web.RespondError ctx err statusCode w))
      = (writer w
         ++ [Header_Set "Content-Type" "application/json; charset=utf-8";
             WriteHeader 500;
             Write internal_server_error_body])%list
      /\ bodies (writer (snd (web.RespondError ctx err statusCode w)))
         = (bodies (writer w) ++ [internal_server_error_body])%list
      /\ status_lines (writer (snd (web.RespondError ctx err statusCode w)))
         = (status_lines (writer w) ++ [500])%list).
Proof.
  intros H. split; [exact (RespondError_default_delegates _ _ _ _ H)|].
  split.
  - intros err' statusCode' H'. now apply RespondError_default_any.
  - intros Hp. rewrite (RespondError_default_run _ _ _ _ H Hp).
    cbn [snd add_span writer]. rewrite responded_writer, tagged_writer.
    cbn [add_span writer].
    split; [reflexivity|]. split.
    + now rewrite bodies_app.
    + now rewrite status_lines_app.
Qed.

Lemma RespondError_opaque_witness :
  as_PublicError (Cause opaque) = None /\
  present sample_ctx /\
  bodies (writer (snd (web.RespondError sample_ctx opaque http.StatusNotFound
                                        sample_world)))
  = [internal_server_error_body] /\
  status_lines (writer (snd (web.RespondError sample_ctx opaque
                                              http.StatusNotFound
                                              sample_world)))
  = [500].
Proof.
  assert (H : as_PublicError (Cause opaque) = None) by reflexivity.
  assert (Hp : present sample_ctx) by reflexivity.
  split; [exact H|]. split; [exact Hp|].
  destruct (RespondError_opaque sample_ctx opaque http.StatusNotFound
              sample_world H) as [_ [_ Hrun]].
  destruct (Hrun Hp) as [_ [Hb Hl]].
  split; [exact Hb | exact Hl].
Defined.

(** C10.  For the nil error [errors.Cause] returns nil, which is no
    [PublicError]; [RespondError] then runs as for every error that is not
    public, and with the [Values] struct in the context it answers 500 with
    the fixed envelope and tags its span server_error. *)
Theorem RespondError_nil ctx statusCode w :
  Cause nil_error = nil_error
  /\ as_PublicError (Cause nil_error) = None
  /\ (forall err statusCode',
        as_PublicError (Cause err) = None ->
        web.RespondError ctx nil_error statusCode w
        = web.RespondError ctx err statusCode' w)
  /\ (present ctx ->
      fst (web.RespondError ctx nil_error statusCode w)
      = Returned (write_error w internal_server_error_body)
      /\ writer (snd (web.RespondError ctx nil_error statusCode w))
         = (writer w
            ++ [Header_Set "Content-Type" "application/json; charset=utf-8";
                WriteHeader 500;
                Write internal_server_error_body])%list
      /\ spans (snd (web.RespondError ctx nil_error statusCode w))
         = (spans w
            ++ [("web.RespondError", StartSpan);
                ("web.RespondError", AddAttributes "error" "server_error");
                ("web.RespondError", SetStatus 500);
                ("web.RespondError", SpanEnd)])%list).
Proof.
  split; [reflexivity|]. split; [reflexivity|]. split.
  - intros err statusCode' H. now apply RespondError_default_any.
  - intros Hp.
    rewrite (RespondError_default_run ctx nil_error statusCode w eq_refl Hp).
    cbn [fst snd]. split; [reflexivity|]. split.
    + cbn [add_span writer]. rewrite responded_writer, tagged_writer.
      reflexivity.
    + cbn [add_span spans]. rewrite responded_spans, tagged_spans.
      cbn [add_span spans]. simpl. now rewrite <- !app_assoc.
Qed.

Lemma RespondError_nil_witness :
  as_PublicError (Cause opaque) = None /\
  present sample_ctx /\
  web.RespondError sample_ctx nil_error http.StatusNotFound sample_world
  = web.RespondError sample_ctx opaque http.StatusOK sample_world /\
  writer (snd (web.RespondError sample_ctx nil_error http.StatusNotFound
                                sample_world))
  = [Header_Set "Content-Type" "application/json; charset=utf-8";
     WriteHeader 500; Write internal_server_error_body].
Proof.
  assert (H : as_PublicError (Cause opaque) = None) by reflexivity.
  assert (Hp : present sample_ctx) by reflexivity.
  split; [exact H|]. split; [exact Hp|].
  destruct (RespondError_nil sample_ctx http.StatusNotFound sample_world)
    as [_ [_ [Hany Hrun]]].
  split; [exact (Hany opaque http.StatusOK H)|].
  exact (proj1 (proj2 (Hrun Hp))).
Defined.

(* ================================================================== *)
(** ** zipkinSetErrorOnSpan *)

Lemma message_attribute_iff (span errmessage : string)
    (tail : list (string * SpanCall)) :
  (forall m, ~ In (span, AddAttributes "message" m) tail) ->
  (exists m,
      In (span, AddAttributes "message" m)
         ((if String.eqb errmessage "" then []
           else [(span, AddAttributes "message" errmessage)]) ++ tail)%list)
  <-> errmessage <> "".
Proof.
  intros Htail. destruct (String.eqb_spec errmessage "") as [E | E].
  - split.
    + intros [m Hin]. simpl in Hin. now elim (Htail m).
    + intros Hne. now elim Hne.
  - split; [intros _; exact E|].
    intros _. exists errmessage. simpl. now left.
Qed.

(** C8.  [zipkinSetErrorOnSpan] with code [errcode], detail [errmessage]
    and status [statusCode] returns after these calls on the span and no
    other: the string attribute error with [errcode]; the string attribute
    message with [errmessage], made if and only if [errmessage] is not
    empty; the status [statusCode].  So for a public error with an empty
    detail answered with a body, the span of [RespondError] gets no message
    attribute while the body has the message field, empty. *)
Theorem zipkinSetErrorOnSpan_tags span errcode errmessage statusCode w :
  fst (web.zipkinSetErrorOnSpan span errcode errmessage statusCode w)
  = Returned tt
  /\ (exists added,
        spans (snd (web.zipkinSetErrorOnSpan span errcode errmessage
                                             statusCode w))
        = (spans w ++ added)%list
        /\ added
           = ((span, AddAttributes "error" errcode)
              :: (if String.eqb errmessage "" then []
                  else [(span, AddAttributes "message" errmessage)])
              ++ [(span, SetStatus statusCode)])%list
        /\ In (span, AddAttributes "error" errcode) added
        /\ ((exists m, In (span, AddAttributes "message" m) added)
            <-> errmessage <> "")
        /\ (errmessage <> "" ->
            In (span, AddAttributes "message" errmessage) added)
        /\ In (span, SetStatus statusCode) added)
  /\ (forall ctx err status,
        as_PublicError (Cause err) = Some (errcode, "") ->
        present ctx -> status <> http.StatusNoContent ->
        spans (snd (web.RespondError ctx err status w))
        = (spans w
           ++ [("web.RespondError", StartSpan);
               ("web.RespondError", AddAttributes "error" errcode);
               ("web.RespondError", SetStatus (int32 status));
               ("web.RespondError", SpanEnd)])%list
        /\ bodies (writer (snd (web.RespondError ctx err status w)))
           = (bodies (writer w)
              ++ [envelope (json.appendString errcode) (quoted "")])%list).
Proof.
  rewrite zipkinSetErrorOnSpan_run. cbn [fst snd].
  split; [reflexivity|]. split.
  - eexists. split; [apply tagged_spans|]. split; [reflexivity|].
    split; [now left|]. split.
    + split.
      * intros [m [Hin | Hin]]; [discriminate Hin|].
        apply (message_attribute_iff span errmessage
                 [(span, SetStatus statusCode)]).
        -- intros m' [Hm' | []]. discriminate Hm'.
        -- now exists m.
      * intros Hne.
        destruct (proj2 (message_attribute_iff span errmessage
                           [(span, SetStatus statusCode)]
                           ltac:(intros m' [Hm' | []]; discriminate Hm'))
                        Hne) as [m Hin].
        exists m. now right.
    + split.
      * intros Hne. right. apply in_or_app. left.
        destruct (String.eqb_spec errmessage "") as [E | _];
          [now elim Hne | now left].
      * right. apply in_or_app. right. now left.
  - intros ctx err status H Hp Hs.
    rewrite (RespondError_public_run _ _ _ _ _ _ H Hp Hs).
    cbn [snd add_span spans writer]. split.
    + rewrite responded_spans, tagged_spans. cbn [add_span spans]. simpl.
      now rewrite <- !app_assoc.
    + rewrite responded_writer, tagged_writer. cbn [add_span writer].
      now rewrite bodies_app.
Qed.

Lemma zipkinSetErrorOnSpan_tags_witness :
  as_PublicError (Cause (public_error "gone" "")) = Some ("gone", "") /\
  present sample_ctx /\ http.StatusNotFound <> http.StatusNoContent /\
  spans (snd (web.RespondError sample_ctx (public_error "gone" "")
                               http.StatusNotFound sample_world))
  = [("web.RespondError", StartSpan);
     ("web.RespondError", AddAttributes "error" "gone");
     ("web.RespondError", SetStatus 404);
     ("web.RespondError", SpanEnd)] /\
  bodies (writer (snd (web.RespondError sample_ctx (public_error "gone" "")
                                        http.StatusNotFound sample_world)))
  = [envelope (quoted "gone") (quoted "")].
Proof.
  assert (H : as_PublicError (Cause (public_error "gone" ""))
              = Some ("gone", "")) by reflexivity.
  assert (Hp : present sample_ctx) by reflexivity.
  assert (Hs : http.StatusNotFound <> http.StatusNoContent) by discriminate.
  split; [exact H|]. split; [exact Hp|]. split; [exact Hs|].
  exact (proj2 (proj2 (zipkinSetErrorOnSpan_tags "web.RespondError" "gone" ""
                         404 sample_world))
               sample_ctx (public_error "gone" "") http.StatusNotFound
               H Hp Hs).
Defined.

(* ================================================================== *)
(** ** Missing context values *)

(** C7.  When the context carries no [Values] struct under [KeyValues],
    [Respond] and the handler made by [Panics] both log the fatal line and
    exit the process with status 1.  The writer has received no call by
    then, and the run of [Panics] is the same for every downstream handler:
    the handler is not started. *)
Theorem missing_values_is_fatal ctx :
  KeyValues ctx = Missing ->
  (forall data statusCode w,
      web.Respond ctx data statusCode w
      = (Exited 1, add_log std "web value missing from context" w)
      /\ writer (snd (web.Respond ctx data statusCode w)) = writer w)
  /\ (forall log after r w,
        middleware.Panics log after ctx r w
        = (Exited 1,
           add_log log "web value missing from context"
             (add_span "internal.middleware.Panics" StartSpan w))
        /\ writer (snd (middleware.Panics log after ctx r w)) = writer w
        /\ forall after',
             middleware.Panics log after' ctx r w
             = middleware.Panics log after ctx r w).
Proof.
  intros H. split.
  - intros data statusCode w. rewrite (Respond_missing _ _ _ _ H).
    split; reflexivity.
  - assert (E : forall log after r w,
               middleware.Panics log after ctx r w
               = (Exited 1,
                  add_log log "web value missing from context"
                    (add_span "internal.middleware.Panics" StartSpan w))).
    { intros log after r w. destruct ctx as [kv sp]; simpl in H; subst kv.
      reflexivity. }
    intros log after r w. rewrite (E log after r w).
    split; [reflexivity|]. split; [reflexivity|].
    intros after'. apply E.
Qed.

Lemma missing_values_is_fatal_witness :
  KeyValues bare_ctx = Missing /\
  middleware.Panics app_logger panicking_handler bare_ctx sample_request
                    sample_world
  = (Exited 1,
     mkWorld (mkValues "trace-1" 0) [] (write_error sample_world)
             [("internal.middleware.Panics", StartSpan)]
             [(app_logger, "web value missing from context")]
             "goroutine 7 [running]").
Proof.
  split; [reflexivity|].
  exact (proj1 (proj2 (missing_values_is_fatal bare_ctx eq_refl)
                  app_logger panicking_handler sample_request sample_world)).
Defined.

(* ================================================================== *)
(** ** Panics *)

Lemma recover_non_nil (V : PanicValue) : V <> PanicNil -> recover V = Some V.
Proof. destruct V; intros H; try reflexivity. now elim H. Qed.

(** C6, as the code has it.  Let the [Values] struct be in the context and
    let the wrapped handler panic with [V], leaving the world [w'].  The
    handler made by [Panics] returns, and the writer is as the wrapped
    handler left it.  When [V] is not nil, it has added to [w'] two log
    lines and the end of its span and nothing else: the first line holds
    [V] as [%v] prints it, the second the trace identifier and then the
    stack trace.  When [V] is the nil that [recover()] returns as nil, it
    has added the end of its span and no log line. *)
Theorem Panics_recovers log after ctx r w V w' :
  present ctx ->
  after (mkContext (KeyValues ctx) (Some "internal.middleware.Panics")) r
        (add_span "internal.middleware.Panics" StartSpan w)
  = (Panicked V, w') ->
  fst (middleware.Panics log after ctx r w) = Returned tt
  /\ writer (snd (middleware.Panics log after ctx r w)) = writer w'
  /\ (V <> PanicNil ->
      middleware.Panics log after ctx r w
      = (Returned tt,
         add_span "internal.middleware.Panics" SpanEnd
           (add_log log
              (TraceID (values w') ++ " :" ++ middleware.nl ++ stack w')
              (add_log log ("panic: " ++ fmt_v V) w')))
      /\ logs (snd (middleware.Panics log after ctx r w))
         = (logs w'
            ++ [(log, ("panic: " ++ fmt_v V)%string);
                (log, (TraceID (values w') ++ " :" ++ middleware.nl
                       ++ stack w')%string)])%list
      /\ Contains (fmt_v V) ("panic: " ++ fmt_v V)
      /\ Contains (TraceID (values w'))
                  (TraceID (values w') ++ " :" ++ middleware.nl ++ stack w')
      /\ Contains (stack w')
                  (TraceID (values w') ++ " :" ++ middleware.nl ++ stack w'))
  /\ (V = PanicNil ->
      middleware.Panics log after ctx r w
      = (Returned tt, add_span "internal.middleware.Panics" SpanEnd w')).
Proof.
  intros Hp Hafter.
  assert (E : middleware.Panics log after ctx r w
              = match recover V with
                | Some V' =>
                    (Returned tt,
                     add_span "internal.middleware.Panics" SpanEnd
                       (add_log log
                          (TraceID (values w') ++ " :" ++ middleware.nl
                           ++ stack w')
                          (add_log log ("panic: " ++ fmt_v V') w')))
                | None =>
                    (Returned tt,
                     add_span "internal.middleware.Panics" SpanEnd w')
                end).
  { by_presence ctx Hp.
    unfold middleware.Panics, bind at 1. unfold trace.StartSpan.
    cbn beta iota. cbn [fst snd KeyValues]. unfold defer, bind at 1.
    cbn [ret]. unfold defer_recover. cbn [KeyValues] in Hafter.
    rewrite Hafter. destruct (recover V); reflexivity. }
  rewrite E. split; [now destruct (recover V)|].
  split; [now destruct (recover V)|]. split.
  - intros HV. rewrite (recover_non_nil V HV).
    split; [reflexivity|].
    split; [cbn; now rewrite <- app_assoc|].
    split; [apply Contains_suffix|]. split; [apply Contains_prefix|].
    rewrite <- !append_assoc. apply Contains_suffix.
  - intros ->. reflexivity.
Qed.

Lemma Panics_recovers_witness :
  present sample_ctx /\
  panicking_handler
    (mkContext Pointer (Some "internal.middleware.Panics")) sample_request
    (add_span "internal.middleware.Panics" StartSpan sample_world)
  = (Panicked (PanicString "oops"),
     add_writer (WriteHeader 200)
       (add_span "internal.middleware.Panics" StartSpan sample_world)) /\
  PanicString "oops" <> PanicNil /\
  middleware.Panics app_logger panicking_handler sample_ctx sample_request
                    sample_world
  = (Returned tt,
     mkWorld (mkValues "trace-1" 0) [WriteHeader 200]
             (write_error sample_world)
             [("internal.middleware.Panics", StartSpan);
              ("internal.middleware.Panics", SpanEnd)]
             [(app_logger, "panic: oops");
              (app_logger,
               "trace-1 :" ++ middleware.nl ++ "goroutine 7 [running]")]
             "goroutine 7 [running]").
Proof.
  assert (Hp : present sample_ctx) by reflexivity.
  assert (Ha : panicking_handler
                 (mkContext (KeyValues sample_ctx)
                            (Some "internal.middleware.Panics"))
                 sample_request
                 (add_span "internal.middleware.Panics" StartSpan sample_world)
               = (Panicked (PanicString "oops"),
                  add_writer (WriteHeader 200)
                    (add_span "internal.middleware.Panics" StartSpan
                              sample_world))) by reflexivity.
  assert (HV : PanicString "oops" <> PanicNil) by discriminate.
  split; [exact Hp|]. split; [exact Ha|]. split; [exact HV|].
  exact (proj1 (proj1 (proj2 (proj2
           (Panics_recovers app_logger panicking_handler sample_ctx
              sample_request sample_world _ _ Hp Ha))) HV)).
Defined.

(** C6, as the spec has it, fails for [panic(nil)] where [recover()]
    returns nil: the guard stops the panic and returns, but the test
    [r != nil] fails and no log line is written, so none holds the panic
    value. *)
Lemma Panics_silent_on_nil_panic :
  present sample_ctx /\
  nil_panicking_handler
    (mkContext Pointer (Some "internal.middleware.Panics")) sample_request
    (add_span "internal.middleware.Panics" StartSpan sample_world)
  = (Panicked PanicNil,
     add_writer (WriteHeader 200)
       (add_span "internal.middleware.Panics" StartSpan sample_world)) /\
  fst (middleware.Panics app_logger nil_panicking_handler sample_ctx
                         sample_request sample_world)
  = Returned tt /\
  logs (snd (middleware.Panics app_logger nil_panicking_handler sample_ctx
                               sample_request sample_world))
  = [] /\
  ~ (exists l line,
        In (l, line)
           (logs (snd (middleware.Panics app_logger nil_panicking_handler
                                         sample_ctx sample_request
                                         sample_world)))
        /\ Contains (fmt_v PanicNil) line).
Proof.
  split; [reflexivity|]. split; [reflexivity|]. split; [reflexivity|].
  split; [reflexivity|]. intros [l [line [Hin _]]]. exact Hin.
Qed.

(* ================================================================== *)
(** ** More on [Respond] *)

Lemma Respond_nil_pointer ctx data statusCode w :
  KeyValues ctx = NilPointer ->
  web.Respond ctx data statusCode w = (Panicked NilDereference, w).
Proof.
  intros H. destruct ctx as [kv sp]; simpl in H; subst kv. reflexivity.
Qed.

(** Without a good pointer to [Values], [Respond] never reaches the
    writer.  With a nil pointer it panics on the store of the status code,
    the world being as it was; it returns only when the pointer is good;
    and whenever the pointer is not good, the writer, the [Values] struct
    and the spans are as they were. *)
Theorem Respond_without_values ctx data statusCode w :
  (KeyValues ctx = NilPointer ->
   web.Respond ctx data statusCode w = (Panicked NilDereference, w))
  /\ (forall e,
        fst (web.Respond ctx data statusCode w) = Returned e ->
        KeyValues ctx = Pointer)
  /\ (KeyValues ctx <> Pointer ->
      writer (snd (web.Respond ctx data statusCode w)) = writer w
      /\ values (snd (web.Respond ctx data statusCode w)) = values w
      /\ spans (snd (web.Respond ctx data statusCode w)) = spans w).
Proof.
  split; [apply Respond_nil_pointer|].
  destruct (KeyValues ctx) eqn:E.
  - rewrite (Respond_missing _ _ _ _ E). cbn [fst snd].
    split; [intros e He; discriminate He|].
    intros _. split; [reflexivity|]. split; reflexivity.
  - rewrite (Respond_nil_pointer _ _ _ _ E). cbn [fst snd].
    split; [intros e He; discriminate He|].
    intros _. split; [reflexivity|]. split; reflexivity.
  - split; [reflexivity|]. intros Hne. now elim Hne.
Qed.

Lemma Respond_appends ctx data statusCode w :
  exists added,
    writer (snd (web.Respond ctx data statusCode w))
    = (writer w ++ added)%list
    /\ (List.length added <= 3)%nat.
Proof.
  destruct (KeyValues ctx) eqn:E.
  - rewrite (Respond_missing _ _ _ _ E). exists []. cbn.
    rewrite app_nil_r. split; [reflexivity | lia].
  - rewrite (Respond_nil_pointer _ _ _ _ E). exists []. cbn.
    rewrite app_nil_r. split; [reflexivity | lia].
  - destruct (Z.eq_dec statusCode http.StatusNoContent) as [-> | Hs].
    + rewrite (Respond_no_content ctx data w E). eexists.
      split; [reflexivity | cbn; lia].
    + destruct (Marshal_cases data) as [[res Hm] | Hm].
      * rewrite (Respond_marshalled _ _ _ _ w E Hs Hm). eexists.
        split; [apply responded_writer | cbn; lia].
      * rewrite (Respond_marshal_failed _ _ _ w E Hs Hm). exists []. cbn.
        rewrite app_nil_r. split; [reflexivity | lia].
Qed.

(** What [Respond] leaves alone.  It only ever appends calls to the writer,
    three at most; it never touches a span, the trace identifier or the
    stack; and it logs nothing unless the context carries no [Values]. *)
Theorem Respond_frame ctx data statusCode w :
  (exists added,
      writer (snd (web.Respond ctx data statusCode w))
      = (writer w ++ added)%list
      /\ (List.length added <= 3)%nat)
  /\ spans (snd (web.Respond ctx data statusCode w)) = spans w
  /\ TraceID (values (snd (web.Respond ctx data statusCode w)))
     = TraceID (values w)
  /\ stack (snd (web.Respond ctx data statusCode w)) = stack w
  /\ (KeyValues ctx <> Missing ->
      logs (snd (web.Respond ctx data statusCode w)) = logs w).
Proof.
  split; [apply Respond_appends|].
  destruct (KeyValues ctx) eqn:E.
  - rewrite (Respond_missing _ _ _ _ E). cbn.
    split; [reflexivity|]. split; [reflexivity|]. split; [reflexivity|].
    intros Hne. now elim Hne.
  - rewrite (Respond_nil_pointer _ _ _ _ E). cbn.
    split; [reflexivity|]. split; [reflexivity|]. split; reflexivity.
  - destruct (Z.eq_dec statusCode http.StatusNoContent) as [-> | Hs].
    + rewrite (Respond_no_content ctx data w E). cbn.
      split; [reflexivity|]. split; [reflexivity|]. split; reflexivity.
    + destruct (Marshal_cases data) as [[res Hm] | Hm].
      * rewrite (Respond_marshalled _ _ _ _ w E Hs Hm). cbn.
        split; [reflexivity|]. split; [reflexivity|]. split; reflexivity.
      * rewrite (Respond_marshal_failed _ _ _ w E Hs Hm). cbn.
        split; [reflexivity|]. split; [reflexivity|]. split; reflexivity.
Qed.

Lemma Respond_frame_witness :
  KeyValues nil_ctx <> Missing /\
  logs (snd (web.Respond nil_ctx ChanV http.StatusOK sample_world))
  = logs sample_world.
Proof.
  assert (H : KeyValues nil_ctx <> Missing) by discriminate.
  split; [exact H|].
  exact (proj2 (proj2 (proj2 (proj2
           (Respond_frame nil_ctx ChanV http.StatusOK sample_world)))) H).
Defined.

Lemma Respond_without_values_witness :
  KeyValues nil_ctx = NilPointer /\
  KeyValues nil_ctx <> Pointer /\
  web.Respond nil_ctx (StringV "ok") http.StatusOK sample_world
  = (Panicked NilDereference, sample_world) /\
  writer (snd (web.Respond nil_ctx (StringV "ok") http.StatusOK sample_world))
  = writer sample_world.
Proof.
  assert (Hn : KeyValues nil_ctx = NilPointer) by reflexivity.
  assert (H : KeyValues nil_ctx <> Pointer) by discriminate.
  split; [exact Hn|]. split; [exact H|]. split.
  - exact (proj1 (Respond_without_values nil_ctx (StringV "ok")
                    http.StatusOK sample_world) Hn).
  - exact (proj1 (proj2 (proj2 (Respond_without_values nil_ctx (StringV "ok")
                                  http.StatusOK sample_world)) H)).
Defined.

(* ================================================================== *)
(** ** More on [RespondError] *)

Lemma int32_small (n : Z) : - 2 ^ 31 <= n < 2 ^ 31 -> int32 n = n.
Proof. intros H. unfold int32. rewrite Z.mod_small; lia. Qed.

Lemma Cause_idempotent : forall e, Cause (Cause e) = Cause e.
Proof.
  fix IH 1. intros [|msg pub [cause|]]; simpl;
    [reflexivity | apply IH | reflexivity].
Qed.

Lemma error_tagged_spans err statusCode w :
  spans (error_tagged err statusCode w)
  = (spans w ++ ("web.RespondError", StartSpan) :: error_tags err statusCode)%list.
Proof.
  unfold error_tagged, error_tags.
  destruct (as_PublicError (Cause err)) as [[code detail]|];
    rewrite tagged_spans; cbn [add_span spans]; unfold span_tags;
    now rewrite <- app_assoc.
Qed.

Lemma error_tagged_frame err statusCode w :
  writer (error_tagged err statusCode w) = writer w
  /\ values (error_tagged err statusCode w) = values w
  /\ logs (error_tagged err statusCode w) = logs w
  /\ write_error (error_tagged err statusCode w) = write_error w
  /\ stack (error_tagged err statusCode w) = stack w.
Proof.
  unfold error_tagged, tagged, tag_message.
  destruct (as_PublicError (Cause err)) as [[code detail]|];
    [destruct (String.eqb detail "")|]; repeat split.
Qed.

Lemma Marshal_error_envelope err :
  json_Marshal.Marshal (ErrorResponseV (error_envelope err))
  = (error_body err, nil_error).
Proof.
  unfold error_envelope, error_body.
  destruct (as_PublicError (Cause err)) as [[code detail]|]; reflexivity.
Qed.

(** [RespondError] is [Respond] on the envelope, between the tagging of the
    span and the deferred end of the span. *)
Lemma RespondError_unfold ctx err statusCode w :
  web.RespondError ctx err statusCode w
  = defer (trace.End_ "web.RespondError")
      (web.Respond ctx (ErrorResponseV (error_envelope err))
                   (error_status err statusCode))
      (error_tagged err statusCode w).
Proof.
  unfold error_envelope, error_status, error_tagged.
  destruct (as_PublicError (Cause err)) as [[code detail]|] eqn:H.
  - rewrite (RespondError_public_delegates _ _ _ _ _ _ H).
    unfold bind at 1. unfold trace.StartSpan. cbv beta iota. simpl snd.
    unfold defer, bind. now rewrite zipkinSetErrorOnSpan_run.
  - rewrite (RespondError_default_delegates _ _ _ _ H).
    unfold bind at 1. unfold trace.StartSpan. cbv beta iota. simpl snd.
    unfold defer, bind. now rewrite zipkinSetErrorOnSpan_run.
Qed.

Lemma RespondError_run_missing ctx err statusCode w :
  KeyValues ctx = Missing ->
  web.RespondError ctx err statusCode w
  = (Exited 1,
     add_log std "web value missing from context"
             (error_tagged err statusCode w)).
Proof.
  intros H. rewrite RespondError_unfold. unfold defer.
  now rewrite (Respond_missing _ _ _ _ H).
Qed.

Lemma RespondError_run_nil_pointer ctx err statusCode w :
  KeyValues ctx = NilPointer ->
  web.RespondError ctx err statusCode w
  = (Panicked NilDereference,
     add_span "web.RespondError" SpanEnd (error_tagged err statusCode w)).
Proof.
  intros H. rewrite RespondError_unfold. unfold defer.
  now rewrite (Respond_nil_pointer _ _ _ _ H).
Qed.

Lemma RespondError_run_no_content ctx err statusCode w :
  present ctx -> error_status err statusCode = http.StatusNoContent ->
  web.RespondError ctx err statusCode w
  = (Returned nil_error,
     add_span "web.RespondError" SpanEnd
       (add_writer (WriteHeader http.StatusNoContent)
          (recorded http.StatusNoContent (error_tagged err statusCode w)))).
Proof.
  intros Hp Hs. rewrite RespondError_unfold, Hs. unfold defer.
  now rewrite (Respond_no_content _ _ _ Hp).
Qed.

Lemma RespondError_run_written ctx err statusCode w :
  present ctx -> error_status err statusCode <> http.StatusNoContent ->
  web.RespondError ctx err statusCode w
  = (Returned (write_error w (error_body err)),
     add_span "web.RespondError" SpanEnd
       (responded (error_status err statusCode) (error_body err)
                  (error_tagged err statusCode w))).
Proof.
  intros Hp Hs. rewrite RespondError_unfold. unfold defer.
  rewrite (Respond_marshalled _ _ _ _ _ Hp Hs (Marshal_error_envelope err)).
  destruct (error_tagged_frame err statusCode w) as [_ [_ [_ [Hw _]]]].
  now rewrite Hw.
Qed.

(** The calls on the span of [RespondError], on every path: the start, the
    tags of the error, and the end.  The end is there when [Respond]
    returned or panicked (it is deferred) and is missing exactly when the
    context carries no [Values], for then the process exits inside
    [Respond] and no deferred call runs. *)
Theorem RespondError_span_calls ctx err statusCode w :
  spans (snd (web.RespondError ctx err statusCode w))
  = (spans w
     ++ ("web.RespondError", StartSpan)
        :: error_tags err statusCode
     ++ match KeyValues ctx with
        | Missing => []
        | _ => [("web.RespondError", SpanEnd)]
        end)%list.
Proof.
  destruct (KeyValues ctx) eqn:E.
  - rewrite (RespondError_run_missing _ _ _ _ E). cbn [snd add_log spans].
    rewrite error_tagged_spans. now rewrite app_nil_r.
  - rewrite (RespondError_run_nil_pointer _ _ _ _ E). cbn [snd add_span spans].
    rewrite error_tagged_spans. now rewrite <- app_assoc.
  - destruct (Z.eq_dec (error_status err statusCode) http.StatusNoContent)
      as [Hs | Hs].
    + rewrite (RespondError_run_no_content _ _ _ _ E Hs).
      cbn [snd add_span add_writer recorded set_values spans].
      rewrite error_tagged_spans. now rewrite <- app_assoc.
    + rewrite (RespondError_run_written _ _ _ _ E Hs).
      cbn [snd add_span spans]. rewrite responded_spans, error_tagged_spans.
      now rewrite <- app_assoc.
Qed.

(** With the [Values] struct in the context, what [RespondError] returns,
    when it returns, is the error of the one [Write] of the envelope, nil
    when that write succeeded; for a public error answered with 204 nothing
    is written and it is nil.  So it returns a failure only if that write
    failed, and never on a writer whose writes all succeed. *)
Theorem RespondError_result ctx err statusCode w e :
  present ctx ->
  fst (web.RespondError ctx err statusCode w) = Returned e ->
  e = (if error_status err statusCode =? http.StatusNoContent
       then nil_error
       else write_error w (error_body err))
  /\ (failed e ->
      error_status err statusCode <> http.StatusNoContent
      /\ failed (write_error w (error_body err)))
  /\ ((forall b, write_error w b = nil_error) -> e = nil_error).
Proof.
  intros Hp He.
  assert (E : e = (if error_status err statusCode =? http.StatusNoContent
                   then nil_error
                   else write_error w (error_body err))).
  { destruct (Z.eq_dec (error_status err statusCode) http.StatusNoContent)
      as [Hs | Hs].
    - rewrite (RespondError_run_no_content _ _ _ _ Hp Hs) in He.
      rewrite Hs. cbn [fst] in He. now inversion He.
    - rewrite (RespondError_run_written _ _ _ _ Hp Hs) in He.
      apply Z.eqb_neq in Hs. rewrite Hs. cbn [fst] in He. now inversion He. }
  split; [exact E|]. split.
  - intros Hf. rewrite E in Hf.
    destruct (error_status err statusCode =? http.StatusNoContent) eqn:Hs.
    + discriminate Hf.
    + split; [now apply Z.eqb_neq | exact Hf].
  - intros Hw. rewrite E, Hw. now destruct (_ =? _).
Qed.

Lemma RespondError_result_witness :
  present sample_ctx /\
  fst (web.RespondError sample_ctx not_found http.StatusNotFound closed_world)
  = Returned broken_pipe /\
  broken_pipe
  = write_error closed_world
      (envelope (quoted "not_found") (quoted "no such callback")).
Proof.
  assert (Hp : present sample_ctx) by reflexivity.
  assert (He : fst (web.RespondError sample_ctx not_found http.StatusNotFound
                                     closed_world)
               = Returned broken_pipe) by reflexivity.
  split; [exact Hp|]. split; [exact He|].
  exact (proj1 (RespondError_result sample_ctx not_found http.StatusNotFound
                  closed_world broken_pipe Hp He)).
Defined.

(** With the [Values] struct in the context, [RespondError] writes exactly
    one status line, and it is the status it has stored in [StatusCode]:
    the caller's for a public error, 500 otherwise.  The trace identifier
    is left as it was. *)
Theorem RespondError_status_recorded ctx err statusCode w :
  present ctx ->
  status_lines (writer (snd (web.RespondError ctx err statusCode w)))
  = (status_lines (writer w)
     ++ [StatusCode (values (snd (web.RespondError ctx err statusCode w)))])%list
  /\ StatusCode (values (snd (web.RespondError ctx err statusCode w)))
     = error_status err statusCode
  /\ TraceID (values (snd (web.RespondError ctx err statusCode w)))
     = TraceID (values w).
Proof.
  intros Hp.
  destruct (error_tagged_frame err statusCode w) as [Hw [Hv _]].
  destruct (Z.eq_dec (error_status err statusCode) http.StatusNoContent)
    as [Hs | Hs].
  - rewrite (RespondError_run_no_content _ _ _ _ Hp Hs).
    cbn [snd add_span add_writer recorded set_values writer values
         StatusCode TraceID].
    rewrite Hw, Hv, Hs, status_lines_app. repeat split.
  - rewrite (RespondError_run_written _ _ _ _ Hp Hs).
    cbn [snd add_span writer values]. rewrite responded_writer.
    unfold responded. cbn [add_writer recorded set_values values StatusCode
                           TraceID].
    rewrite Hw, Hv, status_lines_app. repeat split.
Qed.

Lemma RespondError_status_recorded_witness :
  present sample_ctx /\
  status_lines (writer (snd (web.RespondError sample_ctx opaque
                                              http.StatusNotFound
                                              sample_world)))
  = [500] /\
  StatusCode (values (snd (web.RespondError sample_ctx opaque
                                            http.StatusNotFound
                                            sample_world)))
  = 500.
Proof.
  split; [reflexivity|].
  destruct (RespondError_status_recorded sample_ctx opaque
              http.StatusNotFound sample_world eq_refl) as [Hl [Hs _]].
  split; [rewrite Hl, Hs; reflexivity | exact Hs].
Defined.

(** For a public error and a status code that fits 32 bits, the status
    given to the span is the status code of the caller, the one written to
    the client. *)
Theorem RespondError_span_status ctx err statusCode code detail w :
  present ctx ->
  as_PublicError (Cause err) = Some (code, detail) ->
  - 2 ^ 31 <= statusCode < 2 ^ 31 ->
  spans (snd (web.RespondError ctx err statusCode w))
  = (spans w
     ++ ("web.RespondError", StartSpan)
        :: span_tags "web.RespondError" code detail statusCode
     ++ [("web.RespondError", SpanEnd)])%list
  /\ status_lines (writer (snd (web.RespondError ctx err statusCode w)))
     = (status_lines (writer w) ++ [statusCode])%list.
Proof.
  intros Hp H Hr.
  assert (Ht : error_tags err statusCode
               = span_tags "web.RespondError" code detail statusCode).
  { unfold error_tags. now rewrite H, (int32_small _ Hr). }
  assert (Hst : error_status err statusCode = statusCode).
  { unfold error_status. now rewrite H. }
  destruct (error_tagged_frame err statusCode w) as [Hw _].
  destruct (Z.eq_dec (error_status err statusCode) http.StatusNoContent)
    as [Hs | Hs].
  - rewrite (RespondError_run_no_content _ _ _ _ Hp Hs).
    cbn [snd add_span add_writer recorded set_values spans writer].
    rewrite error_tagged_spans, Ht, Hw, status_lines_app, <- Hst, Hs.
    split; [now rewrite <- app_assoc | reflexivity].
  - rewrite (RespondError_run_written _ _ _ _ Hp Hs).
    cbn [snd add_span spans writer].
    rewrite responded_spans, responded_writer, error_tagged_spans, Ht, Hw,
      status_lines_app, Hst.
    split; [now rewrite <- app_assoc | reflexivity].
Qed.

Lemma RespondError_span_status_witness :
  present sample_ctx /\
  as_PublicError (Cause not_found) = Some ("not_found", "no such callback") /\
  - 2 ^ 31 <= http.StatusNotFound < 2 ^ 31 /\
  spans (snd (web.RespondError sample_ctx not_found http.StatusNotFound
                               sample_world))
  = [("web.RespondError", StartSpan);
     ("web.RespondError", AddAttributes "error" "not_found");
     ("web.RespondError", AddAttributes "message" "no such callback");
     ("web.RespondError", SetStatus 404);
     ("web.RespondError", SpanEnd)].
Proof.
  assert (Hp : present sample_ctx) by reflexivity.
  assert (H : as_PublicError (Cause not_found)
              = Some ("not_found", "no such callback")) by reflexivity.
  assert (Hr : - 2 ^ 31 <= http.StatusNotFound < 2 ^ 31)
    by (split; [discriminate | reflexivity]).
  split; [exact Hp|]. split; [exact H|]. split; [exact Hr|].
  exact (proj1 (RespondError_span_status sample_ctx not_found
                  http.StatusNotFound _ _ sample_world Hp H Hr)).
Defined.

(** Only the root cause of an error decides what [RespondError] does: two
    errors whose root causes are public with the same code and detail, or
    are both not public, give the same run, whatever their texts and
    wrappers; so an error that implements [causer] is treated as its cause,
    and an error as its root cause. *)
Theorem RespondError_by_root_cause ctx err statusCode w :
  (forall err',
      as_PublicError (Cause err') = as_PublicError (Cause err) ->
      web.RespondError ctx err' statusCode w
      = web.RespondError ctx err statusCode w)
  /\ (forall msg public,
        web.RespondError ctx (an_error msg public (Some err)) statusCode w
        = web.RespondError ctx err statusCode w)
  /\ web.RespondError ctx (Cause err) statusCode w
     = web.RespondError ctx err statusCode w.
Proof.
  assert (E : forall err', as_PublicError (Cause err')
                           = as_PublicError (Cause err) ->
              web.RespondError ctx err' statusCode w
              = web.RespondError ctx err statusCode w).
  { intros err' H. rewrite !RespondError_unfold.
    unfold error_envelope, error_status, error_tagged. now rewrite H. }
  split; [exact E|]. split.
  - intros msg public. apply E. reflexivity.
  - apply E. now rewrite Cause_idempotent.
Qed.

Lemma RespondError_by_root_cause_witness :
  as_PublicError (Cause (public_error "not_found" "no such callback"))
  = as_PublicError (Cause not_found) /\
  web.RespondError sample_ctx (public_error "not_found" "no such callback")
                   http.StatusNotFound sample_world
  = web.RespondError sample_ctx not_found http.StatusNotFound sample_world.
Proof.
  split; [reflexivity|].
  exact (proj1 (RespondError_by_root_cause sample_ctx not_found
                  http.StatusNotFound sample_world)
               (public_error "not_found" "no such callback") eq_refl).
Defined.

(** An error that implements [PublicError] and also [causer] is not
    answered with its own code: when its cause is not public (nil
    included), the answer is the 500 of an internal error and the caller's
    status code is dropped. *)
Theorem RespondError_public_wrapper ctx msg code detail cause statusCode w :
  as_PublicError (Cause cause) = None ->
  web.RespondError ctx (an_error msg (Some (code, detail)) (Some cause))
                   statusCode w
  = web.RespondError ctx nil_error http.StatusInternalServerError w
  /\ (present ctx ->
      bodies (writer (snd (web.RespondError ctx
                             (an_error msg (Some (code, detail)) (Some cause))
                             statusCode w)))
      = (bodies (writer w) ++ [internal_server_error_body])%list
      /\ status_lines (writer (snd (web.RespondError ctx
                             (an_error msg (Some (code, detail)) (Some cause))
                             statusCode w)))
         = (status_lines (writer w) ++ [500])%list).
Proof.
  intros H.
  assert (H' : as_PublicError
                 (Cause (an_error msg (Some (code, detail)) (Some cause)))
               = None) by exact H.
  split.
  - now apply RespondError_default_any.
  - intros Hp. rewrite (RespondError_default_run _ _ _ _ H' Hp).
    cbn [snd add_span writer]. rewrite responded_writer, tagged_writer.
    cbn [add_span writer]. rewrite bodies_app, status_lines_app.
    split; reflexivity.
Qed.

Lemma RespondError_public_wrapper_witness :
  as_PublicError (Cause (plain_error "pq: duplicate key")) = None /\
  present sample_ctx /\
  bodies (writer (snd (web.RespondError sample_ctx public_wrapper 409
                                        sample_world)))
  = [internal_server_error_body].
Proof.
  assert (H : as_PublicError (Cause (plain_error "pq: duplicate key")) = None)
    by reflexivity.
  assert (Hp : present sample_ctx) by reflexivity.
  split; [exact H|]. split; [exact Hp|].
  exact (proj1 (proj2 (RespondError_public_wrapper sample_ctx "conflict"
                         "conflict" "already registered"
                         (plain_error "pq: duplicate key") 409 sample_world H)
                      Hp)).
Defined.

(* ================================================================== *)
(** ** More on [Panics] *)

(** The context and the world the wrapped handler is started with. *)
Lemma Panics_unfold log after ctx r w :
  KeyValues ctx <> Missing ->
  middleware.Panics log after ctx r w
  = defer (trace.End_ "internal.middleware.Panics")
      (defer_recover
         (fun p =>
            match p with
            | Some V =>
                log.Print log ("panic: " ++ fmt_v V) ;;
                id <- load_TraceID (KeyValues ctx) ;;
                st <- debug_Stack ;;
                log.Print log (id ++ " :" ++ middleware.nl ++ st)
            | None => ret tt
            end)
         (after (mkContext (KeyValues ctx)
                           (Some "internal.middleware.Panics")) r))
      (add_span "internal.middleware.Panics" StartSpan w).
Proof.
  intros H. destruct ctx as [[| |] sp]; cbn [KeyValues] in *;
    [now elim H | reflexivity | reflexivity].
Qed.

Lemma Panics_returned log after ctx r w u w' :
  KeyValues ctx <> Missing ->
  after (mkContext (KeyValues ctx) (Some "internal.middleware.Panics")) r
        (add_span "internal.middleware.Panics" StartSpan w)
  = (Returned u, w') ->
  middleware.Panics log after ctx r w
  = (Returned tt, add_span "internal.middleware.Panics" SpanEnd w').
Proof.
  intros H Ha. rewrite (Panics_unfold _ _ _ _ _ H).
  unfold defer, defer_recover. now rewrite Ha.
Qed.

Lemma Panics_exited log after ctx r w c w' :
  KeyValues ctx <> Missing ->
  after (mkContext (KeyValues ctx) (Some "internal.middleware.Panics")) r
        (add_span "internal.middleware.Panics" StartSpan w)
  = (Exited c, w') ->
  middleware.Panics log after ctx r w = (Exited c, w').
Proof.
  intros H Ha. rewrite (Panics_unfold _ _ _ _ _ H).
  unfold defer, defer_recover. now rewrite Ha.
Qed.

Lemma Panics_recovered_nil log after ctx r w w' :
  KeyValues ctx <> Missing ->
  after (mkContext (KeyValues ctx) (Some "internal.middleware.Panics")) r
        (add_span "internal.middleware.Panics" StartSpan w)
  = (Panicked PanicNil, w') ->
  middleware.Panics log after ctx r w
  = (Returned tt, add_span "internal.middleware.Panics" SpanEnd w').
Proof.
  intros H Ha. rewrite (Panics_unfold _ _ _ _ _ H).
  unfold defer, defer_recover. now rewrite Ha.
Qed.

Lemma Panics_recovered log after ctx r w V w' :
  present ctx ->
  V <> PanicNil ->
  after (mkContext (KeyValues ctx) (Some "internal.middleware.Panics")) r
        (add_span "internal.middleware.Panics" StartSpan w)
  = (Panicked V, w') ->
  middleware.Panics log after ctx r w
  = (Returned tt,
     add_span "internal.middleware.Panics" SpanEnd
       (add_log log (TraceID (values w') ++ " :" ++ middleware.nl ++ stack w')
          (add_log log ("panic: " ++ fmt_v V) w'))).
Proof.
  intros Hp HV Ha.
  rewrite (Panics_unfold log after ctx r w)
    by (unfold present in Hp; rewrite Hp; discriminate).
  unfold defer, defer_recover. rewrite Ha, (recover_non_nil V HV).
  unfold present in Hp. rewrite Hp. reflexivity.
Qed.

Lemma Panics_nil_pointer_panicked log after ctx r w V w' :
  KeyValues ctx = NilPointer ->
  V <> PanicNil ->
  after (mkContext (KeyValues ctx) (Some "internal.middleware.Panics")) r
        (add_span "internal.middleware.Panics" StartSpan w)
  = (Panicked V, w') ->
  middleware.Panics log after ctx r w
  = (Panicked NilDereference,
     add_span "internal.middleware.Panics" SpanEnd
       (add_log log ("panic: " ++ fmt_v V) w')).
Proof.
  intros Hn HV Ha.
  rewrite (Panics_unfold log after ctx r w) by (rewrite Hn; discriminate).
  unfold defer, defer_recover. rewrite Ha, (recover_non_nil V HV), Hn.
  reflexivity.
Qed.

Lemma PanicNil_dec (V : PanicValue) : V = PanicNil \/ V <> PanicNil.
Proof. destruct V; (now left) || (right; discriminate). Qed.

(** With the [Values] struct in the context the handler made by [Panics]
    never ends in a panic, whatever the wrapped handler does.  It ends the
    process exactly when the wrapped handler did, and it adds no log line
    unless the wrapped handler panicked. *)
Theorem Panics_never_panics log after ctx r w :
  present ctx ->
  (forall v, fst (middleware.Panics log after ctx r w) <> Panicked v)
  /\ (forall c,
        fst (middleware.Panics log after ctx r w) = Exited c
        <-> fst (after (mkContext (KeyValues ctx)
                                  (Some "internal.middleware.Panics")) r
                       (add_span "internal.middleware.Panics" StartSpan w))
            = Exited c)
  /\ ((forall V,
         fst (after (mkContext (KeyValues ctx)
                               (Some "internal.middleware.Panics")) r
                    (add_span "internal.middleware.Panics" StartSpan w))
         <> Panicked V) ->
      logs (snd (middleware.Panics log after ctx r w))
      = logs (snd (after (mkContext (KeyValues ctx)
                                    (Some "internal.middleware.Panics")) r
                         (add_span "internal.middleware.Panics" StartSpan w)))).
Proof.
  intros Hp.
  assert (Hne : KeyValues ctx <> Missing)
    by (unfold present in Hp; rewrite Hp; discriminate).
  destruct (after (mkContext (KeyValues ctx)
                             (Some "internal.middleware.Panics")) r
                  (add_span "internal.middleware.Panics" StartSpan w))
    as [[u | V | c] w'] eqn:Ha.
  - rewrite (Panics_returned _ _ _ _ _ _ _ Hne Ha). cbn [fst snd].
    split; [discriminate|]. split; [|reflexivity].
    intros c. split; discriminate.
  - assert (Hret : fst (middleware.Panics log after ctx r w) = Returned tt).
    { destruct (PanicNil_dec V) as [-> | HV].
      - now rewrite (Panics_recovered_nil _ _ _ _ _ _ Hne Ha).
      - now rewrite (Panics_recovered _ _ _ _ _ _ _ Hp HV Ha). }
    rewrite Hret. cbn [fst snd].
    split; [discriminate|]. split.
    + intros c. split; discriminate.
    + intros H. now elim (H V).
  - rewrite (Panics_exited _ _ _ _ _ _ _ Hne Ha). cbn [fst snd].
    split; [discriminate|]. split; [|reflexivity].
    intros c'. split; trivial.
Qed.

Lemma Panics_never_panics_witness :
  present sample_ctx /\
  fst (middleware.Panics app_logger panicking_handler sample_ctx
                         sample_request sample_world)
  <> Panicked (PanicString "oops").
Proof.
  split; [reflexivity|].
  exact (proj1 (Panics_never_panics app_logger panicking_handler sample_ctx
                  sample_request sample_world eq_refl)
               (PanicString "oops")).
Defined.

(** The handler made by [Panics] makes no call on the writer and leaves the
    [Values] struct alone, whatever the wrapped handler does, once it has
    found a [Values] pointer (nil or not): both are as the wrapped handler
    left them. *)
Theorem Panics_frame log after ctx r w :
  KeyValues ctx <> Missing ->
  writer (snd (middleware.Panics log after ctx r w))
  = writer (snd (after (mkContext (KeyValues ctx)
                                  (Some "internal.middleware.Panics")) r
                       (add_span "internal.middleware.Panics" StartSpan w)))
  /\ values (snd (middleware.Panics log after ctx r w))
     = values (snd (after (mkContext (KeyValues ctx)
                                     (Some "internal.middleware.Panics")) r
                          (add_span "internal.middleware.Panics" StartSpan w))).
Proof.
  intros Hne.
  destruct (after (mkContext (KeyValues ctx)
                             (Some "internal.middleware.Panics")) r
                  (add_span "internal.middleware.Panics" StartSpan w))
    as [[u | V | c] w'] eqn:Ha.
  - rewrite (Panics_returned _ _ _ _ _ _ _ Hne Ha). split; reflexivity.
  - destruct (PanicNil_dec V) as [HV | HV].
    + subst V. rewrite (Panics_recovered_nil _ _ _ _ _ _ Hne Ha).
      split; reflexivity.
    + destruct (KeyValues ctx) eqn:E.
      * now elim Hne.
      * assert (Ha' : after (mkContext (KeyValues ctx)
                               (Some "internal.middleware.Panics")) r
                        (add_span "internal.middleware.Panics" StartSpan w)
                      = (Panicked V, w')) by (rewrite E; exact Ha).
        rewrite (Panics_nil_pointer_panicked _ _ _ _ _ _ _ E HV Ha').
        split; reflexivity.
      * assert (Ha' : after (mkContext (KeyValues ctx)
                               (Some "internal.middleware.Panics")) r
                        (add_span "internal.middleware.Panics" StartSpan w)
                      = (Panicked V, w')) by (rewrite E; exact Ha).
        rewrite (Panics_recovered _ _ _ _ _ _ _ E HV Ha').
        split; reflexivity.
  - rewrite (Panics_exited _ _ _ _ _ _ _ Hne Ha). split; reflexivity.
Qed.

Lemma Panics_frame_witness :
  KeyValues sample_ctx <> Missing /\
  writer (snd (middleware.Panics app_logger quiet_handler sample_ctx
                                 sample_request sample_world))
  = [WriteHeader 200].
Proof.
  assert (H : KeyValues sample_ctx <> Missing) by discriminate.
  split; [exact H|].
  exact (proj1 (Panics_frame app_logger quiet_handler sample_ctx
                  sample_request sample_world H)).
Defined.

(** When the context holds a nil pointer to [Values] and the wrapped
    handler panics with a value that [recover()] returns as not nil, the
    deferred function logs the panic value and then panics itself on the
    trace identifier: the handler made by [Panics] ends in a
    nil-dereference panic, the second log line is not written, and the
    span is ended. *)
Theorem Panics_nil_values_repanics log after ctx r w V w' :
  KeyValues ctx = NilPointer ->
  V <> PanicNil ->
  after (mkContext (KeyValues ctx) (Some "internal.middleware.Panics")) r
        (add_span "internal.middleware.Panics" StartSpan w)
  = (Panicked V, w') ->
  fst (middleware.Panics log after ctx r w) = Panicked NilDereference
  /\ logs (snd (middleware.Panics log after ctx r w))
     = (logs w' ++ [(log, ("panic: " ++ fmt_v V)%string)])%list
  /\ spans (snd (middleware.Panics log after ctx r w))
     = (spans w' ++ [("internal.middleware.Panics", SpanEnd)])%list.
Proof.
  intros Hn HV Ha.
  rewrite (Panics_nil_pointer_panicked _ _ _ _ _ _ _ Hn HV Ha).
  split; [reflexivity|]. split; reflexivity.
Qed.

Lemma Panics_nil_values_repanics_witness :
  KeyValues nil_ctx = NilPointer /\
  PanicString "oops" <> PanicNil /\
  panicking_handler
    (mkContext NilPointer (Some "internal.middleware.Panics")) sample_request
    (add_span "internal.middleware.Panics" StartSpan sample_world)
  = (Panicked (PanicString "oops"),
     add_writer (WriteHeader 200)
       (add_span "internal.middleware.Panics" StartSpan sample_world)) /\
  fst (middleware.Panics app_logger panicking_handler nil_ctx sample_request
                         sample_world)
  = Panicked NilDereference.
Proof.
  assert (Hn : KeyValues nil_ctx = NilPointer) by reflexivity.
  assert (Ha : panicking_handler
                 (mkContext (KeyValues nil_ctx)
                            (Some "internal.middleware.Panics"))
                 sample_request
                 (add_span "internal.middleware.Panics" StartSpan sample_world)
               = (Panicked (PanicString "oops"),
                  add_writer (WriteHeader 200)
                    (add_span "internal.middleware.Panics" StartSpan
                              sample_world))) by reflexivity.
  assert (HV : PanicString "oops" <> PanicNil) by discriminate.
  split; [exact Hn|]. split; [exact HV|]. split; [exact Ha|].
  exact (proj1 (Panics_nil_values_repanics app_logger panicking_handler
                  nil_ctx sample_request sample_world _ _ Hn HV Ha)).
Defined.

(** [Panics] around [Panics], with the [Values] struct in the context: a
    panic of the handler with a value that [recover()] returns as not nil
    is stopped by the inner guard, which writes the two log lines to its
    logger; the outer guard sees a handler that returned and logs nothing;
    after the handler the run has added those two lines and two ends of
    span. *)
Theorem Panics_twice outer inner after ctx r w V w' :
  present ctx ->
  V <> PanicNil ->
  after (mkContext (KeyValues ctx) (Some "internal.middleware.Panics")) r
        (add_span "internal.middleware.Panics" StartSpan
           (add_span "internal.middleware.Panics" StartSpan w))
  = (Panicked V, w') ->
  middleware.Panics outer (middleware.Panics inner after) ctx r w
  = (Returned tt,
     add_span "internal.middleware.Panics" SpanEnd
       (add_span "internal.middleware.Panics" SpanEnd
          (add_log inner
             (TraceID (values w') ++ " :" ++ middleware.nl ++ stack w')
             (add_log inner ("panic: " ++ fmt_v V) w'))))
  /\ logs (snd (middleware.Panics outer (middleware.Panics inner after)
                                  ctx r w))
     = (logs w'
        ++ [(inner, ("panic: " ++ fmt_v V)%string);
            (inner, (TraceID (values w') ++ " :" ++ middleware.nl
                     ++ stack w')%string)])%list.
Proof.
  intros Hp HV Ha.
  assert (Hne : KeyValues ctx <> Missing)
    by (unfold present in Hp; rewrite Hp; discriminate).
  assert (Hin : middleware.Panics inner after
                  (mkContext (KeyValues ctx)
                             (Some "internal.middleware.Panics")) r
                  (add_span "internal.middleware.Panics" StartSpan w)
                = (Returned tt,
                   add_span "internal.middleware.Panics" SpanEnd
                     (add_log inner
                        (TraceID (values w') ++ " :" ++ middleware.nl
                         ++ stack w')
                        (add_log inner ("panic: " ++ fmt_v V) w')))).
  { apply Panics_recovered; [exact Hp | exact HV | exact Ha]. }
  rewrite (Panics_returned outer _ ctx r w _ _ Hne Hin).
  split; [reflexivity|]. cbn. now rewrite <- app_assoc.
Qed.

Lemma Panics_twice_witness :
  present sample_ctx /\
  PanicString "oops" <> PanicNil /\
  panicking_handler
    (mkContext Pointer (Some "internal.middleware.Panics")) sample_request
    (add_span "internal.middleware.Panics" StartSpan
       (add_span "internal.middleware.Panics" StartSpan sample_world))
  = (Panicked (PanicString "oops"),
     add_writer (WriteHeader 200)
       (add_span "internal.middleware.Panics" StartSpan
          (add_span "internal.middleware.Panics" StartSpan sample_world))) /\
  logs (snd (middleware.Panics (logger "OUTER : ")
               (middleware.Panics app_logger panicking_handler)
               sample_ctx sample_request sample_world))
  = [(app_logger, "panic: oops");
     (app_logger, "trace-1 :" ++ middleware.nl ++ "goroutine 7 [running]")].
Proof.
  assert (Hp : present sample_ctx) by reflexivity.
  assert (Ha : panicking_handler
                 (mkContext (KeyValues sample_ctx)
                            (Some "internal.middleware.Panics"))
                 sample_request
                 (add_span "internal.middleware.Panics" StartSpan
                    (add_span "internal.middleware.Panics" StartSpan
                              sample_world))
               = (Panicked (PanicString "oops"),
                  add_writer (WriteHeader 200)
                    (add_span "internal.middleware.Panics" StartSpan
                       (add_span "internal.middleware.Panics" StartSpan
                                 sample_world)))) by reflexivity.
  assert (HV : PanicString "oops" <> PanicNil) by discriminate.
  split; [exact Hp|]. split; [exact HV|]. split; [exact Ha|].
  exact (proj2 (Panics_twice (logger "OUTER : ") app_logger panicking_handler
                  sample_ctx sample_request sample_world _ _ Hp HV Ha)).
Defined.

(* ================================================================== *)
(** ** What the encoder never writes *)














(** [Panics] around a handler that answers through [RespondError], with
    the [Values] struct in the context: when that call of [RespondError]
    returns, the guard returns, having added the end of its span and
    nothing else; nothing is logged; the writer and the [Values] struct end
    as [RespondError] alone leaves them; and the calls on the span of
    [RespondError] lie between the start and the end of the guard's. *)
Theorem Panics_around_RespondError log err statusCode ctx r w e w2 :
  present ctx ->
  web.RespondError
    (mkContext (KeyValues ctx) (Some "internal.middleware.Panics"))
    err statusCode (add_span "internal.middleware.Panics" StartSpan w)
  = (Returned e, w2) ->
  middleware.Panics log (failing_handler err statusCode) ctx r w
  = (Returned tt, add_span "internal.middleware.Panics" SpanEnd w2)
  /\ logs (snd (middleware.Panics log (failing_handler err statusCode)
                                  ctx r w))
     = logs w
  /\ writer (snd (middleware.Panics log (failing_handler err statusCode)
                                    ctx r w))
     = writer (snd (web.RespondError ctx err statusCode w))
  /\ values (snd (middleware.Panics log (failing_handler err statusCode)
                                    ctx r w))
     = values (snd (web.RespondError ctx err statusCode w))
  /\ spans (snd (middleware.Panics log (failing_handler err statusCode)
                                   ctx r w))
     = (spans w
        ++ ("internal.middleware.Panics", StartSpan)
           :: ("web.RespondError", StartSpan)
           :: error_tags err statusCode
        ++ [("web.RespondError", SpanEnd);
            ("internal.middleware.Panics", SpanEnd)])%list.
Proof.
  intros Hp Hret.
  assert (Hne : KeyValues ctx <> Missing)
    by (unfold present in Hp; rewrite Hp; discriminate).
  assert (Hp' : present (mkContext (KeyValues ctx)
                                   (Some "internal.middleware.Panics")))
    by exact Hp.
  assert (Ha : failing_handler err statusCode
                 (mkContext (KeyValues ctx)
                            (Some "internal.middleware.Panics")) r
                 (add_span "internal.middleware.Panics" StartSpan w)
               = (Returned tt, w2)).
  { unfold failing_handler, bind. now rewrite Hret. }
  rewrite (Panics_returned _ _ _ _ _ _ _ Hne Ha).
  split; [reflexivity|].
  destruct (error_tagged_frame err statusCode w) as [Hw [Hv [Hl _]]].
  destruct (error_tagged_frame err statusCode
              (add_span "internal.middleware.Panics" StartSpan w))
    as [Hw1 [Hv1 [Hl1 _]]].
  destruct (Z.eq_dec (error_status err statusCode) http.StatusNoContent)
    as [Hs | Hs].
  - rewrite (RespondError_run_no_content _ _ _ _ Hp' Hs) in Hret.
    inversion Hret; subst e w2.
    rewrite (RespondError_run_no_content _ _ _ _ Hp Hs).
    cbn [fst snd add_span add_writer recorded set_values writer values logs
         spans].
    rewrite Hw1, Hv1, Hl1, Hw, Hv, error_tagged_spans.
    cbn [add_span writer values logs spans].
    repeat (split; [reflexivity|]). now rewrite <- !app_assoc.
  - rewrite (RespondError_run_written _ _ _ _ Hp' Hs) in Hret.
    inversion Hret; subst w2.
    rewrite (RespondError_run_written _ _ _ _ Hp Hs).
    cbn [fst snd add_span writer values logs spans].
    rewrite !responded_writer, responded_spans. unfold responded.
    cbn [add_writer recorded set_values writer values logs spans].
    rewrite Hw1, Hv1, Hl1, Hw, Hv, error_tagged_spans.
    cbn [add_span writer values logs spans].
    repeat (split; [reflexivity|]). now rewrite <- !app_assoc.
Qed.

Lemma Panics_around_RespondError_witness :
  present sample_ctx /\
  fst (web.RespondError
         (mkContext Pointer (Some "internal.middleware.Panics"))
         opaque http.StatusNotFound
         (add_span "internal.middleware.Panics" StartSpan sample_world))
  = Returned nil_error /\
  writer (snd (middleware.Panics app_logger
                 (failing_handler opaque http.StatusNotFound)
                 sample_ctx sample_request sample_world))
  = [Header_Set "Content-Type" "application/json; charset=utf-8";
     WriteHeader 500; Write internal_server_error_body] /\
  logs (snd (middleware.Panics app_logger
               (failing_handler opaque http.StatusNotFound)
               sample_ctx sample_request sample_world))
  = [].
Proof.
  assert (Hp : present sample_ctx) by reflexivity.
  split; [exact Hp|]. split; [reflexivity|].
  destruct (Panics_around_RespondError app_logger opaque http.StatusNotFound
              sample_ctx sample_request sample_world nil_error
              (snd (web.RespondError
                      (mkContext Pointer (Some "internal.middleware.Panics"))
                      opaque http.StatusNotFound
                      (add_span "internal.middleware.Panics" StartSpan
                                sample_world)))
              Hp eq_refl)
    as [_ [Hl [Hw _]]].
  split; [rewrite Hw; reflexivity | exact Hl].
Defined.
